(** * PyTorch model handlers of the RunInference transform

    A shallow embedding of
    [sdks/python/apache_beam/ml/inference/pytorch_inference.py]:
    the model loader with its CPU fallback, the device normalizer, the
    plain and keyed inference functions (default and named-method
    variants) and the two handler classes.

    Python code that logs, calls the storage layer or the tensor library,
    or raises, is written in a state-and-exception monad over a [World]
    that holds the environment's answers and the trace of what the code
    did.  An exception keeps the trace: effects performed before a raise
    stay performed. *)

From Stdlib Require Import List String Ascii Bool Arith Lia PeanoNat ZArith.
Import ListNotations.
Local Open Scope string_scope.
Local Open Scope list_scope.

Set Implicit Arguments.

(** ** Exceptions *)

(** The exception classes that the module, the tensor library and the
    storage layer raise. *)
Inductive exn_class : Type :=
| RuntimeError
| RecursionError
| NotImplementedError
| TypeError
| AttributeError
| UnboundLocalError
| OSError
| ValueError.

Record exn : Type := Exn { exn_cls : exn_class; exn_msg : string }.

(** [isinstance(e, RuntimeError)]: the class itself and its builtin
    subclasses. *)
Definition is_RuntimeError (e : exn) : bool :=
  match exn_cls e with
  | RuntimeError | RecursionError | NotImplementedError => true
  | _ => false
  end.

Inductive result (A : Type) : Type :=
| Ok (a : A)
| Raise (e : exn).
Arguments Ok {A} a.
Arguments Raise {A} e.

Definition is_ok {A} (r : result A) : bool :=
  match r with Ok _ => true | Raise _ => false end.

(** ** Devices *)

(** [torch.device('cpu')] and [torch.device('cuda')], the two devices the
    module ever constructs. *)
Inductive torch_device : Type := cpu | cuda.

Definition device_eqb (a b : torch_device) : bool :=
  match a, b with
  | cpu, cpu | cuda, cuda => true
  | _, _ => false
  end.

(** [str(device)], as the log messages format it. *)
Definition device_str (d : torch_device) : string :=
  match d with cpu => "cpu" | cuda => "cuda" end.

(** ** The world: environment and trace *)

(** What the code does to the outside, in the order it does it. *)
Inductive event : Type :=
| LogInfo (msg : string)
| LogWarning (msg : string)
| EvConstruct                          (* the call of model_class *)
| EvOpen (path : string)               (* FileSystems.open(path, 'rb') *)
| EvTorchLoad (map_location : torch_device)   (* torch.load(file, ...) *)
| EvLoadStateDict                      (* model.load_state_dict *)
| EvTransfer (src dst : torch_device)       (* tensor.to(device) *)
| EvGetattr (name : string)            (* getattr(model, name) *)
| EvInvoke.                            (* a call of the model *)

Definition event_is_torch_load (e : event) : bool :=
  match e with EvTorchLoad _ => true | _ => false end.

Definition event_is_cuda_load (e : event) : bool :=
  match e with EvTorchLoad cuda => true | _ => false end.

Definition event_is_invoke (e : event) : bool :=
  match e with EvInvoke => true | _ => false end.

Definition event_is_getattr (e : event) : bool :=
  match e with EvGetattr _ => true | _ => false end.

Definition event_is_transfer (e : event) : bool :=
  match e with EvTransfer _ _ => true | _ => false end.

(** The serialized weights and their deserialized form are opaque. *)
Definition file := list nat.
Definition state_dict := list nat.

(** The environment answers from the history so far, so that an answer
    may change from one call to the next (an accelerator that fails
    once, a file that appears later). *)
Record Env : Type := {
  cuda_is_available : list event -> bool;
  FileSystems_open : list event -> string -> result file;
  torch_load : list event -> file -> torch_device -> result state_dict
}.

Record World : Type := { env : Env; log : list event }.

Definition M (A : Type) : Type := World -> result A * World.

Definition ret {A} (a : A) : M A := fun w => (Ok a, w).

Definition raise {A} (e : exn) : M A := fun w => (Raise e, w).

Definition bind {A B} (m : M A) (k : A -> M B) : M B :=
  fun w =>
    match m w with
    | (Ok a, w') => k a w'
    | (Raise e, w') => (Raise e, w')
    end.

Definition lift {A} (r : result A) : M A := fun w => (r, w).

Definition emit (e : event) : M unit :=
  fun w => (Ok tt, {| env := env w; log := log w ++ [e] |}).

Definition ask {A} (f : Env -> list event -> A) : M A :=
  fun w => (Ok (f (env w) (log w)), w).

Declare Scope py_scope.
Delimit Scope py_scope with py.
Notation "x <- c ;; k" := (bind c (fun x => k))
  (at level 61, c at next level, right associativity) : py_scope.
Notation "c ;;; k" := (bind c (fun _ => k))
  (at level 61, right associativity) : py_scope.
Local Open Scope py_scope.

(** [try: body except RuntimeError as e: handler(e)] *)
Definition try_except_RuntimeError {A} (body : M A) (handler : exn -> M A)
  : M A :=
  fun w =>
    match body w with
    | (Ok a, w') => (Ok a, w')
    | (Raise e, w') =>
        if is_RuntimeError e then handler e w' else (Raise e, w')
    end.

Definition logging_info (msg : string) : M unit := emit (LogInfo msg).
Definition logging_warning (msg : string) : M unit := emit (LogWarning msg).

(** ** Tensors *)

Inductive torch_dtype : Type := uint8 | int32 | int64 | float32 | float64.

(** [Tensor.element_size()]: bytes of one element. *)
Definition dtype_size (d : torch_dtype) : nat :=
  match d with
  | uint8 => 1
  | int32 => 4
  | int64 => 8
  | float32 => 4
  | float64 => 8
  end.

Definition dtype_rank (d : torch_dtype) : nat :=
  match d with
  | uint8 => 0
  | int32 => 1
  | int64 => 2
  | float32 => 3
  | float64 => 4
  end.

(** [torch.promote_types] on these five types. *)
Definition promote_types (a b : torch_dtype) : torch_dtype :=
  if Nat.ltb (dtype_rank a) (dtype_rank b) then b else a.

(** A tensor: its shape, element type, device and elements in row-major
    order. *)
Record Tensor : Type := {
  t_shape : list nat;
  t_dtype : torch_dtype;
  t_device : torch_device;
  t_data : list Z
}.

Definition element_size (t : Tensor) : nat := dtype_size (t_dtype t).

Definition prod (l : list nat) : nat := fold_right Nat.mul 1 l.

(** [Tensor.numel()] *)
Definition numel (t : Tensor) : nat := prod (t_shape t).

Definition shape_eqb (a b : list nat) : bool :=
  if list_eq_dec Nat.eq_dec a b then true else false.

(** [n] consecutive rows of [k] elements each. *)
Fixpoint rows (k n : nat) (l : list Z) : list (list Z) :=
  match n with
  | 0 => []
  | S n' => firstn k l :: rows k n' (skipn k l)
  end.

(** [iter(tensor)]: the slices along the first dimension; a 0-d tensor
    cannot be iterated. *)
Definition tensor_iter (t : Tensor) : result (list Tensor) :=
  match t_shape t with
  | [] => Raise (Exn TypeError "iteration over a 0-d tensor")
  | n :: s =>
      Ok (map (fun r => {| t_shape := s; t_dtype := t_dtype t;
                           t_device := t_device t; t_data := r |})
              (rows (prod s) n (t_data t)))
  end.

(** What [torch.stack] asks of its argument: at least one tensor, all of
    one shape, all on one device. *)
Definition stackable (ts : list Tensor) : bool :=
  match ts with
  | [] => false
  | t :: rest =>
      forallb (fun u => shape_eqb (t_shape u) (t_shape t)) rest
      && forallb (fun u => device_eqb (t_device u) (t_device t)) rest
  end.

(** [torch.stack(ts)]: a new leading dimension of length [len(ts)].  The
    elements are kept as the integers they are modelled by: the rounding
    that a promotion to a floating dtype applies to large integers is not
    modelled, and no statement below reads the elements of a stack of
    tensors of different dtypes. *)
Definition torch_stack (ts : list Tensor) : result Tensor :=
  match ts with
  | [] => Raise (Exn RuntimeError "stack expects a non-empty TensorList")
  | t :: rest =>
      if negb (forallb (fun u => shape_eqb (t_shape u) (t_shape t)) rest)
      then Raise (Exn RuntimeError
                      "stack expects each tensor to be equal size")
      else if negb (forallb (fun u => device_eqb (t_device u) (t_device t))
                            rest)
      then Raise (Exn RuntimeError
                      "Expected all tensors to be on the same device")
      else Ok {| t_shape := List.length ts :: t_shape t;
                 t_dtype := fold_left promote_types (map t_dtype rest)
                                      (t_dtype t);
                 t_device := t_device t;
                 t_data := List.concat (map t_data ts) |}
  end.

(** The error of a move onto an accelerator the host does not have. *)
Definition no_cuda : exn := Exn RuntimeError "No CUDA GPUs are available".

(** [tensor.to(device)]: the tensor itself when it is there already, a
    copy on [device] otherwise; a move onto the accelerator raises when
    the host has none. *)
Definition tensor_to (t : Tensor) (d : torch_device) : M Tensor :=
  if device_eqb (t_device t) d then ret t
  else
    available <- ask cuda_is_available ;;
    if device_eqb d cuda && negb available then raise no_cuda
    else
      emit (EvTransfer (t_device t) d) ;;;
      ret {| t_shape := t_shape t; t_dtype := t_dtype t; t_device := d;
             t_data := t_data t |}.

(** ** Python values, dictionaries and models *)

Inductive pyval : Type :=
| VTensor (t : Tensor)
| VInt (n : Z)
| VStr (s : string)
| VBool (b : bool)
| VNone.

(** A [dict] with string keys, in insertion order.  A dictionary holds
    each key once; [dict_set] keeps it so. *)
Definition dict (V : Type) : Type := list (string * V).

Fixpoint dict_get {V} (d : dict V) (k : string) : option V :=
  match d with
  | [] => None
  | (k', v) :: d' => if String.eqb k' k then Some v else dict_get d' k
  end.

Definition dict_keys {V} (d : dict V) : list string := map fst d.
Definition dict_values {V} (d : dict V) : list V := map snd d.

Definition dict_mem {V} (d : dict V) (k : string) : bool :=
  existsb (String.eqb k) (dict_keys d).

(** [d[k] = v] *)
Fixpoint dict_set {V} (d : dict V) (k : string) (v : V) : dict V :=
  match d with
  | [] => [(k, v)]
  | (k', v') :: d' =>
      if String.eqb k' k then (k', v) :: d' else (k', v') :: dict_set d' k v
  end.

(** A bound method or the model's call: positional tensors and keyword
    arguments in, a tensor of predictions out. *)
Definition callable : Type := list Tensor -> dict pyval -> result Tensor.

(** A [torch.nn.Module]. *)
Record Module : Type := {
  forward : callable;
  methods : dict callable;
  accepts : state_dict -> result unit;
  m_state : option state_dict;
  m_device : torch_device;
  m_training : bool
}.

Definition module_with_state (m : Module) (sd : state_dict) : Module :=
  {| forward := forward m; methods := methods m; accepts := accepts m;
     m_state := Some sd; m_device := m_device m;
     m_training := m_training m |}.

(** [model.load_state_dict(state_dict)] *)
Definition load_state_dict (m : Module) (sd : state_dict) : M Module :=
  emit EvLoadStateDict ;;;
  lift (accepts m sd) ;;;
  ret (module_with_state m sd).

(** [model.to(device)] *)
Definition module_to (m : Module) (d : torch_device) : Module :=
  {| forward := forward m; methods := methods m; accepts := accepts m;
     m_state := m_state m; m_device := d; m_training := m_training m |}.

(** [model.eval()] *)
Definition module_eval (m : Module) : Module :=
  {| forward := forward m; methods := methods m; accepts := accepts m;
     m_state := m_state m; m_device := m_device m; m_training := false |}.

(** [getattr(model, name)] *)
Definition getattr (m : Module) (name : string) : M callable :=
  emit (EvGetattr name) ;;;
  if String.eqb name "forward" then ret (forward m)
  else match dict_get (methods m) name with
       | Some f => ret f
       | None =>
           raise (Exn AttributeError
                      ("'Module' object has no attribute '"
                         ++ name ++ "'")%string)
       end.

(** A call [f] with positional and keyword arguments. *)
Definition invoke (f : callable) (pos : list Tensor) (kw : dict pyval)
  : M Tensor :=
  emit EvInvoke ;;; lift (f pos kw).

(** Two dictionaries unpacked into one call: a keyword given twice is a
    [TypeError]. *)
Definition merge_kwargs (a b : dict pyval) : result (dict pyval) :=
  match find (fun k => dict_mem a k) (dict_keys b) with
  | Some k =>
      Raise (Exn TypeError
                 ("got multiple values for keyword argument '"
                    ++ k ++ "'")%string)
  | None => Ok (a ++ b)
  end.

(** ** Prediction results *)

(** Modelled from the spec: [PredictionResult] is declared in the
    inference base module, outside this file.  It is a pairing of one
    original input element with its corresponding model output and an
    optional originating-model identifier. *)
Record PredictionResult (X : Type) : Type := {
  example : X;
  inference : Tensor;
  model_id : option string
}.
Arguments example {X} _.
Arguments inference {X} _.
Arguments model_id {X} _.

(** Modelled from the spec: [utils._convert_to_result] lives in the
    inference utilities, outside this file.  It pairs each original input
    element with its corresponding slice of the model's output, in input
    order, attaching the source identifier to each. *)
Definition _convert_to_result {X} (batch : list X) (predictions : Tensor)
    (mid : option string) : result (list (PredictionResult X)) :=
  match tensor_iter predictions with
  | Raise e => Raise e
  | Ok slices =>
      Ok (map (fun xy => {| example := fst xy; inference := snd xy;
                            model_id := mid |})
              (combine batch slices))
  end.

(** ** The model loader *)

Definition nl : string := String (ascii_of_nat 10) EmptyString.

Definition gpu_unavailable_msg : string :=
  ("Model handler specified a 'GPU' device, but GPUs are not available. "
     ++ "Switching to CPU.")%string.

Definition loading_msg (state_dict_path : string) (d : torch_device)
  : string :=
  ("Loading state_dict_path " ++ state_dict_path ++ " onto a "
     ++ device_str d ++ " device")%string.

Definition gpu_failed_msg (e : exn) : string :=
  ("Loading the model onto a GPU device failed due to an exception:" ++ nl
     ++ exn_msg e ++ nl
     ++ "Attempting to load onto a CPU device instead.")%string.

Definition model_class_t : Type := dict pyval -> result Module.

(** [_load_model(model_class, state_dict_path, device, **model_params)].
    The function calls itself in its [except] branch; [depth] is the room
    left on the interpreter's call stack. *)
Fixpoint _load_model_rec (depth : nat) (model_class : model_class_t)
    (state_dict_path : string) (device : torch_device)
    (model_params : dict pyval) : M (Module * torch_device) :=
  match depth with
  | 0 => raise (Exn RecursionError "maximum recursion depth exceeded")
  | S depth' =>
      emit EvConstruct ;;;
      model <- lift (model_class model_params) ;;
      available <- ask cuda_is_available ;;
      device <- (if device_eqb device cuda && negb available
                 then logging_warning gpu_unavailable_msg ;;; ret cpu
                 else ret device) ;;
      emit (EvOpen state_dict_path) ;;;
      file <- (fun w =>
                 (FileSystems_open (env w) (log w) state_dict_path, w)) ;;
      loaded <-
        try_except_RuntimeError
          (logging_info (loading_msg state_dict_path device) ;;;
           emit (EvTorchLoad device) ;;;
           state_dict <- (fun w =>
                            (torch_load (env w) (log w) file device, w)) ;;
           ret (inl state_dict))
          (fun e =>
             if device_eqb device cuda
             then
               logging_warning (gpu_failed_msg e) ;;;
               r <- _load_model_rec depth' model_class state_dict_path cpu
                      model_params ;;
               ret (inr r)
             else raise e) ;;
      match loaded with
      | inr r => ret r
      | inl state_dict =>
          model <- load_state_dict model state_dict ;;
          logging_info "Finished loading PyTorch model." ;;;
          ret (module_eval (module_to model device), device)
      end
  end.

(** The names of [_load_model]'s own parameters: a call that unpacks a
    dictionary beside them cannot give one of them again. *)
Definition _load_model_parameters : list string :=
  ["model_class"; "state_dict_path"; "device"].

Definition names_parameter (k : string) : bool :=
  existsb (String.eqb k) _load_model_parameters.

Definition multiple_values_for (k : string) : exn :=
  Exn TypeError
      ("_load_model() got multiple values for argument '" ++ k ++ "'")%string.

(** The interpreter's default recursion limit. *)
Definition recursion_limit : nat := 1000.

Definition _load_model : model_class_t -> string -> torch_device ->
                         dict pyval -> M (Module * torch_device) :=
  _load_model_rec recursion_limit.

(** ** The device normalizer *)

(** [_convert_to_device(examples, device)] *)
Definition _convert_to_device (examples : Tensor) (device : torch_device)
  : M Tensor :=
  if negb (device_eqb (t_device examples) device)
  then tensor_to examples device
  else ret examples.

(** ** The plain-tensor inference functions *)

(** Keyword arguments unpacked from [inference_args]: [None] is not a
    mapping. *)
Definition unpack (inference_args : option (dict pyval))
  : result (dict pyval) :=
  match inference_args with
  | Some d => Ok d
  | None =>
      Raise (Exn TypeError
                 "argument after ** must be a mapping, not NoneType")
  end.

Definition TensorInferenceFn : Type :=
  list Tensor -> Module -> torch_device -> option (dict pyval) ->
  option string -> M (list (PredictionResult Tensor)).

Definition KeyedTensorInferenceFn : Type :=
  list (dict Tensor) -> Module -> torch_device -> option (dict pyval) ->
  option string -> M (list (PredictionResult (dict Tensor))).

(** [default_tensor_inference_fn] *)
Definition default_tensor_inference_fn : TensorInferenceFn :=
  fun batch model device inference_args mid =>
    batched_tensors <- lift (torch_stack batch) ;;
    batched_tensors <- _convert_to_device batched_tensors device ;;
    kw <- lift (unpack inference_args) ;;
    predictions <- invoke (forward model) [batched_tensors] kw ;;
    lift (_convert_to_result batch predictions mid).

(** [make_tensor_model_fn(model_fn)] *)
Definition make_tensor_model_fn (model_fn : string) : TensorInferenceFn :=
  fun batch model device inference_args mid =>
    batched_tensors <- lift (torch_stack batch) ;;
    batched_tensors <- _convert_to_device batched_tensors device ;;
    pred_fn <- getattr model model_fn ;;
    kw <- lift (unpack inference_args) ;;
    predictions <- invoke pred_fn [batched_tensors] kw ;;
    lift (_convert_to_result batch predictions mid).

(** ** The plain-tensor handler *)

(** The generator [sum(f(el) for x in xs for el in inner(x))]: the sum
    is taken left to right and stops at the first [inner] that raises. *)
Fixpoint sum_gen {X E} (inner : X -> result (list E)) (f : E -> nat)
    (xs : list X) (acc : nat) : result nat :=
  match xs with
  | [] => Ok acc
  | x :: xs' =>
      match inner x with
      | Raise e => Raise e
      | Ok els =>
          sum_gen inner f xs' (fold_left (fun a el => a + f el) els acc)
      end
  end.

Module PytorchModelHandlerTensor.

Record t : Type := {
  _state_dict_path : string;
  _device : torch_device;
  _model_class : model_class_t;
  _model_params : dict pyval;
  _inference_fn : TensorInferenceFn;
  _batching_kwargs : dict nat
}.

(** [__init__] *)
Definition __init__ (state_dict_path : string)
    (model_class : model_class_t) (model_params : dict pyval)
    (device : string) (inference_fn : TensorInferenceFn)
    (min_batch_size max_batch_size : option nat) : M t :=
  dev <- (if String.eqb device "GPU"
          then logging_info "Device is set to CUDA" ;;; ret cuda
          else logging_info "Device is set to CPU" ;;; ret cpu) ;;
  let kwargs := [] in
  let kwargs := match min_batch_size with
                | Some n => dict_set kwargs "min_batch_size" n
                | None => kwargs
                end in
  let kwargs := match max_batch_size with
                | Some n => dict_set kwargs "max_batch_size" n
                | None => kwargs
                end in
  ret {| _state_dict_path := state_dict_path;
         _device := dev;
         _model_class := model_class;
         _model_params := model_params;
         _inference_fn := inference_fn;
         _batching_kwargs := kwargs |}.

Definition set_device (self : t) (d : torch_device) : t :=
  {| _state_dict_path := _state_dict_path self;
     _device := d;
     _model_class := _model_class self;
     _model_params := _model_params self;
     _inference_fn := _inference_fn self;
     _batching_kwargs := _batching_kwargs self |}.

Definition set_state_dict_path (self : t) (p : string) : t :=
  {| _state_dict_path := p;
     _device := _device self;
     _model_class := _model_class self;
     _model_params := _model_params self;
     _inference_fn := _inference_fn self;
     _batching_kwargs := _batching_kwargs self |}.

(** [load_model]: the handler after the call comes with the result; a
    call that raises leaves the handler as it was.  The call unpacks
    [self._model_params] beside the loader's own parameters, so a key
    named like one of them is a [TypeError] before the loader runs. *)
Definition load_model (self : t) (w : World) : result Module * t * World :=
  match find names_parameter (dict_keys (_model_params self)) with
  | Some k => (Raise (multiple_values_for k), self, w)
  | None =>
      match _load_model (_model_class self) (_state_dict_path self)
                        (_device self) (_model_params self) w with
      | (Ok (model, device), w') => (Ok model, set_device self device, w')
      | (Raise e, w') => (Raise e, self, w')
      end
  end.

(** [update_model_path] *)
Definition update_model_path (self : t) (model_path : option string) : t :=
  match model_path with
  | None | Some EmptyString => self
  | Some p => set_state_dict_path self p
  end.

(** [run_inference] *)
Definition run_inference (self : t) (batch : list Tensor) (model : Module)
    (inference_args : option (dict pyval))
  : M (list (PredictionResult Tensor)) :=
  let inference_args :=
    match inference_args with
    | None | Some [] => []
    | Some a => a
    end in
  _inference_fn self batch model (_device self) (Some inference_args)
                (Some (_state_dict_path self)).

(** [get_num_bytes] *)
Definition get_num_bytes (batch : list Tensor) : result nat :=
  sum_gen tensor_iter element_size batch 0.

(** [get_metrics_namespace] *)
Definition get_metrics_namespace (self : t) : string := "BeamML_PyTorch".

(** [validate_inference_args] *)
Definition validate_inference_args (self : t)
    (inference_args : option (dict pyval)) : unit := tt.

(** [batch_elements_kwargs] *)
Definition batch_elements_kwargs (self : t) : dict nat :=
  _batching_kwargs self.

End PytorchModelHandlerTensor.

(** ** The keyed-tensor inference functions *)

(** [key_to_tensor_list[key].append(tensor)] on a [defaultdict(list)]:
    a key seen for the first time gets a fresh list at the end of the
    dictionary. *)
Fixpoint defaultdict_append (d : dict (list Tensor)) (key : string)
    (tensor : Tensor) : dict (list Tensor) :=
  match d with
  | [] => [(key, [tensor])]
  | (k, l) :: d' =>
      if String.eqb k key then (k, l ++ [tensor]) :: d'
      else (k, l) :: defaultdict_append d' key tensor
  end.

(** [key_to_tensor_list[key]] on a [defaultdict(list)] *)
Definition defaultdict_get (d : dict (list Tensor)) (key : string)
  : list Tensor :=
  match dict_get d key with
  | Some l => l
  | None => []
  end.

(** The grouping loops: every example, every item of it. *)
Definition group_by_key (batch : list (dict Tensor)) : dict (list Tensor) :=
  fold_left
    (fun key_to_tensor_list example =>
       fold_left (fun d kt => defaultdict_append d (fst kt) (snd kt))
                 example key_to_tensor_list)
    batch [].

(** The stacking loop of [default_keyed_tensor_inference_fn], over the
    keys still to visit. *)
Fixpoint stack_keys (key_to_tensor_list : dict (list Tensor))
    (device : torch_device) (keys : list string)
    (key_to_batched_tensors : dict Tensor) : M (dict Tensor) :=
  match keys with
  | [] => ret key_to_batched_tensors
  | key :: keys' =>
      batched_tensors <-
        lift (torch_stack (defaultdict_get key_to_tensor_list key)) ;;
      batched_tensors <- _convert_to_device batched_tensors device ;;
      stack_keys key_to_tensor_list device keys'
                 (dict_set key_to_batched_tensors key batched_tensors)
  end.

Definition tensor_kwargs (d : dict Tensor) : dict pyval :=
  map (fun kt => (fst kt, VTensor (snd kt))) d.

(** [default_keyed_tensor_inference_fn] *)
Definition default_keyed_tensor_inference_fn : KeyedTensorInferenceFn :=
  fun batch model device inference_args mid =>
    let key_to_tensor_list := group_by_key batch in
    key_to_batched_tensors <-
      stack_keys key_to_tensor_list device (dict_keys key_to_tensor_list)
                 [] ;;
    extra <- lift (unpack inference_args) ;;
    kw <- lift (merge_kwargs (tensor_kwargs key_to_batched_tensors) extra) ;;
    predictions <- invoke (forward model) [] kw ;;
    lift (_convert_to_result batch predictions mid).

(** The stacking loop of the named-method variant, which also assigns
    the local [pred_fn] in its body; [None] is the local not yet bound. *)
Fixpoint stack_keys_attr (model : Module) (model_fn : string)
    (key_to_tensor_list : dict (list Tensor))
    (device : torch_device) (keys : list string)
    (key_to_batched_tensors : dict Tensor) (pred_fn : option callable)
  : M (dict Tensor * option callable) :=
  match keys with
  | [] => ret (key_to_batched_tensors, pred_fn)
  | key :: keys' =>
      batched_tensors <-
        lift (torch_stack (defaultdict_get key_to_tensor_list key)) ;;
      batched_tensors <- _convert_to_device batched_tensors device ;;
      f <- getattr model model_fn ;;
      stack_keys_attr model model_fn key_to_tensor_list device keys'
                      (dict_set key_to_batched_tensors key batched_tensors)
                      (Some f)
  end.

(** [make_keyed_tensor_model_fn(model_fn)] *)
Definition make_keyed_tensor_model_fn (model_fn : string)
  : KeyedTensorInferenceFn :=
  fun batch model device inference_args mid =>
    let key_to_tensor_list := group_by_key batch in
    loop <-
      stack_keys_attr model model_fn key_to_tensor_list device
                      (dict_keys key_to_tensor_list) [] None ;;
    let key_to_batched_tensors := fst loop in
    match snd loop with
    | None =>
        raise (Exn UnboundLocalError
                   "local variable 'pred_fn' referenced before assignment")
    | Some pred_fn =>
        extra <- lift (unpack inference_args) ;;
        kw <- lift (merge_kwargs (tensor_kwargs key_to_batched_tensors)
                                 extra) ;;
        predictions <- invoke pred_fn [] kw ;;
        lift (_convert_to_result batch predictions mid)
    end.

(** ** The keyed-tensor handler *)

Module PytorchModelHandlerKeyedTensor.

Record t : Type := {
  _state_dict_path : string;
  _device : torch_device;
  _model_class : model_class_t;
  _model_params : dict pyval;
  _inference_fn : KeyedTensorInferenceFn;
  _batching_kwargs : dict nat
}.

(** [__init__] *)
Definition __init__ (state_dict_path : string)
    (model_class : model_class_t) (model_params : dict pyval)
    (device : string) (inference_fn : KeyedTensorInferenceFn)
    (min_batch_size max_batch_size : option nat) : M t :=
  dev <- (if String.eqb device "GPU"
          then logging_info "Device is set to CUDA" ;;; ret cuda
          else logging_info "Device is set to CPU" ;;; ret cpu) ;;
  let kwargs := [] in
  let kwargs := match min_batch_size with
                | Some n => dict_set kwargs "min_batch_size" n
                | None => kwargs
                end in
  let kwargs := match max_batch_size with
                | Some n => dict_set kwargs "max_batch_size" n
                | None => kwargs
                end in
  ret {| _state_dict_path := state_dict_path;
         _device := dev;
         _model_class := model_class;
         _model_params := model_params;
         _inference_fn := inference_fn;
         _batching_kwargs := kwargs |}.

Definition set_device (self : t) (d : torch_device) : t :=
  {| _state_dict_path := _state_dict_path self;
     _device := d;
     _model_class := _model_class self;
     _model_params := _model_params self;
     _inference_fn := _inference_fn self;
     _batching_kwargs := _batching_kwargs self |}.

Definition set_state_dict_path (self : t) (p : string) : t :=
  {| _state_dict_path := p;
     _device := _device self;
     _model_class := _model_class self;
     _model_params := _model_params self;
     _inference_fn := _inference_fn self;
     _batching_kwargs := _batching_kwargs self |}.

(** [load_model], with the same unpacking of [self._model_params]. *)
Definition load_model (self : t) (w : World) : result Module * t * World :=
  match find names_parameter (dict_keys (_model_params self)) with
  | Some k => (Raise (multiple_values_for k), self, w)
  | None =>
      match _load_model (_model_class self) (_state_dict_path self)
                        (_device self) (_model_params self) w with
      | (Ok (model, device), w') => (Ok model, set_device self device, w')
      | (Raise e, w') => (Raise e, self, w')
      end
  end.

(** [update_model_path] *)
Definition update_model_path (self : t) (model_path : option string) : t :=
  match model_path with
  | None | Some EmptyString => self
  | Some p => set_state_dict_path self p
  end.

(** [run_inference] *)
Definition run_inference (self : t) (batch : list (dict Tensor))
    (model : Module) (inference_args : option (dict pyval))
  : M (list (PredictionResult (dict Tensor))) :=
  let inference_args :=
    match inference_args with
    | None | Some [] => []
    | Some a => a
    end in
  _inference_fn self batch model (_device self) (Some inference_args)
                (Some (_state_dict_path self)).

(** [get_num_bytes]: [el.element_size()] for every value of every
    example's dictionary. *)
Definition get_num_bytes (batch : list (dict Tensor)) : result nat :=
  sum_gen (fun tensor => Ok (dict_values tensor)) element_size batch 0.

(** [get_metrics_namespace] *)
Definition get_metrics_namespace (self : t) : string := "BeamML_PyTorch".

(** [validate_inference_args] *)
Definition validate_inference_args (self : t)
    (inference_args : option (dict pyval)) : unit := tt.

(** [batch_elements_kwargs] *)
Definition batch_elements_kwargs (self : t) : dict nat :=
  _batching_kwargs self.

End PytorchModelHandlerKeyedTensor.

(** * Reference definitions and sample data *)

(** A [float32] tensor of shape [[2; 3]]. *)
Definition tensor_2x3 : Tensor :=
  {| t_shape := [2; 3]; t_dtype := float32; t_device := cpu;
     t_data := [1; 2; 3; 4; 5; 6]%Z |}.

(** The tensors of a keyed batch: each dictionary's values, flattened. *)
Definition keyed_batch_tensors (batch : list (dict Tensor)) : list Tensor :=
  flat_map (fun d => dict_values d) batch.

(** The storage of a tensor in bytes: its element count times its element
    width. *)
Definition tensor_nbytes (t : Tensor) : nat := numel t * element_size t.


(** The error of reading the local [pred_fn] before any assignment. *)
Definition unbound_pred_fn : exn :=
  Exn UnboundLocalError
      "local variable 'pred_fn' referenced before assignment".

(** The world after the code has done [evs] more. *)
Definition extend (w : World) (evs : list event) : World :=
  {| env := env w; log := log w ++ evs |}.

(** The deserializations among some events, in order. *)
Definition loads (evs : list event) : list event :=
  filter event_is_torch_load evs.

(** The device an attempt deserializes onto: the requested one, or the
    CPU when the accelerator is requested and not there. *)
Definition target_device (requested : torch_device) (available : bool)
  : torch_device :=
  if device_eqb requested cuda && negb available then cpu else requested.

(** What one attempt of the loader does up to and including its
    deserialization. *)
Definition attempt_events (path : string) (requested : torch_device)
    (available : bool) : list event :=
  [EvConstruct]
    ++ (if device_eqb requested cuda && negb available
        then [LogWarning gpu_unavailable_msg] else [])
    ++ [EvOpen path;
        LogInfo (loading_msg path (target_device requested available));
        EvTorchLoad (target_device requested available)].

(** The events between two attempts, and before the first. *)
Definition before_open (requested : torch_device) (available : bool)
  : list event :=
  [EvConstruct]
    ++ (if device_eqb requested cuda && negb available
        then [LogWarning gpu_unavailable_msg] else []).

(** The sequences of deserializations a call of the loader can make. *)
Definition load_patterns : list (list event) :=
  [ [];
    [EvTorchLoad cpu];
    [EvTorchLoad cuda];
    [EvTorchLoad cuda; EvTorchLoad cpu] ].

(** The number of tensor transfers performed so far. *)
Definition transfers (w : World) : nat :=
  List.length (filter event_is_transfer (log w)).

(** An environment with constant answers: whether an accelerator is
    there, and what deserializing onto each device gives. *)
Definition const_env (available : bool)
    (load : torch_device -> result state_dict) : Env :=
  {| cuda_is_available := fun _ => available;
     FileSystems_open := fun _ _ => Ok [80; 75];
     torch_load := fun _ _ d => load d |}.

(** A machine without accelerator on which loading works. *)
Definition world_cpu_only : World :=
  {| env := const_env false (fun _ => Ok [1; 2; 3]); log := [] |}.

(** A model that returns its input unchanged: the positional tensor, or
    the tensor passed as keyword [x]. *)
Definition identity_model : Module :=
  {| forward := fun pos kw =>
                  match pos with
                  | x :: _ => Ok x
                  | [] =>
                      match dict_get kw "x" with
                      | Some (VTensor x) => Ok x
                      | _ => Raise (Exn TypeError
                                        "forward() missing argument 'x'")
                      end
                  end;
     methods := [];
     accepts := fun _ => Ok tt;
     m_state := None;
     m_device := cpu;
     m_training := true |}.

(** A model class whose constructor always succeeds. *)
Definition identity_class : model_class_t := fun _ => Ok identity_model.

Definition cuda_oom : exn := Exn RuntimeError "CUDA error: out of memory".
Definition bad_pickle : exn :=
  Exn RuntimeError "Invalid magic number; corrupt file?".

(** A machine whose accelerator is there but cannot take the weights. *)
Definition world_gpu_fails : World :=
  {| env := const_env true
              (fun d => match d with
                        | cuda => Raise cuda_oom
                        | cpu => Ok [1; 2; 3]
                        end);
     log := [] |}.

(** A machine with an accelerator on which loading works. *)
Definition world_gpu : World :=
  {| env := const_env true (fun _ => Ok [1; 2; 3]); log := [] |}.

(** A machine on which the weights cannot be deserialized at all. *)
Definition world_corrupt : World :=
  {| env := const_env true (fun _ => Raise bad_pickle); log := [] |}.

(** A call of the loader fell back when, between [w] and [w'], it logged
    one of its two fallback warnings: the accelerator is not there, or
    loading onto it failed. *)
Definition fell_back (w w' : World) : Prop :=
  exists evs,
    w' = extend w evs
    /\ (In (LogWarning gpu_unavailable_msg) evs
        \/ exists e, In (LogWarning (gpu_failed_msg e)) evs).

(** What the pipeline may call on a handler between two inferences; each
    load runs in the world of its moment. *)
Inductive handler_call : Type :=
| CallLoadModel (w : World)
| CallUpdateModelPath (model_path : option string).

Definition tensor_handler_call (h : PytorchModelHandlerTensor.t)
    (c : handler_call) : PytorchModelHandlerTensor.t :=
  match c with
  | CallLoadModel w => snd (fst (PytorchModelHandlerTensor.load_model h w))
  | CallUpdateModelPath p => PytorchModelHandlerTensor.update_model_path h p
  end.

Definition keyed_handler_call (h : PytorchModelHandlerKeyedTensor.t)
    (c : handler_call) : PytorchModelHandlerKeyedTensor.t :=
  match c with
  | CallLoadModel w =>
      snd (fst (PytorchModelHandlerKeyedTensor.load_model h w))
  | CallUpdateModelPath p =>
      PytorchModelHandlerKeyedTensor.update_model_path h p
  end.

(** A plain handler built with [device='GPU']. *)
Definition gpu_handler : PytorchModelHandlerTensor.t :=
  {| PytorchModelHandlerTensor._state_dict_path := "m.pt";
     PytorchModelHandlerTensor._device := cuda;
     PytorchModelHandlerTensor._model_class := identity_class;
     PytorchModelHandlerTensor._model_params := [];
     PytorchModelHandlerTensor._inference_fn := default_tensor_inference_fn;
     PytorchModelHandlerTensor._batching_kwargs := [] |}.

(** The model that [identity_class] gives once loaded on the CPU. *)
Definition identity_on_cpu : Module :=
  module_eval (module_to (module_with_state identity_model [1; 2; 3]) cpu).

(** The trace of a load that tries the accelerator, fails, and goes
    through on the CPU. *)
Definition fallback_trace : list event :=
  [EvConstruct; EvOpen "m.pt";
   LogInfo "Loading state_dict_path m.pt onto a cuda device";
   EvTorchLoad cuda;
   LogWarning (gpu_failed_msg cuda_oom);
   EvConstruct; EvOpen "m.pt";
   LogInfo "Loading state_dict_path m.pt onto a cpu device";
   EvTorchLoad cpu;
   EvLoadStateDict;
   LogInfo "Finished loading PyTorch model."].

(** The tensor [_convert_to_device] returns: the tensor itself, or its
    copy on the device. *)
Definition moved_to (t : Tensor) (d : torch_device) : Tensor :=
  if device_eqb (t_device t) d then t
  else {| t_shape := t_shape t; t_dtype := t_dtype t; t_device := d;
          t_data := t_data t |}.

(** A batch of same-shaped tensors, and a batch held on one device. *)
Definition same_shaped (batch : list Tensor) : Prop :=
  forall t u, In t batch -> In u batch -> t_shape t = t_shape u.

Definition same_device (batch : list Tensor) : Prop :=
  forall t u, In t batch -> In u batch -> t_device t = t_device u.


(** [run_inference]'s view of its optional arguments. *)
Definition normalized_args (inference_args : option (dict pyval))
  : dict pyval :=
  match inference_args with
  | None | Some [] => []
  | Some a => a
  end.

(** Two [float32] vectors of three elements, and one on the accelerator. *)
Definition vec_a : Tensor :=
  {| t_shape := [3]; t_dtype := float32; t_device := cpu;
     t_data := [1; 2; 3]%Z |}.

Definition vec_b : Tensor :=
  {| t_shape := [3]; t_dtype := float32; t_device := cpu;
     t_data := [4; 5; 6]%Z |}.


(** A plain handler built with the defaults. *)
Definition cpu_handler : PytorchModelHandlerTensor.t :=
  {| PytorchModelHandlerTensor._state_dict_path := "m.pt";
     PytorchModelHandlerTensor._device := cpu;
     PytorchModelHandlerTensor._model_class := identity_class;
     PytorchModelHandlerTensor._model_params := [];
     PytorchModelHandlerTensor._inference_fn := default_tensor_inference_fn;
     PytorchModelHandlerTensor._batching_kwargs := [] |}.

(** The tensors an example holds under [key] (one, or none). *)
Definition items_column (example : dict Tensor) (key : string)
  : list Tensor :=
  map snd (filter (fun kt => String.eqb (fst kt) key) example).

(** The tensors a batch holds under [key], in batch order: one for each
    example that has the key. *)
Definition column (batch : list (dict Tensor)) (key : string)
  : list Tensor :=
  flat_map (fun example => items_column example key) batch.

(** Some example of the batch has [key]. *)
Definition has_key (batch : list (dict Tensor)) (key : string) : Prop :=
  exists example, In example batch /\ In key (dict_keys example).

Definition empty_tensor : Tensor :=
  {| t_shape := [0]; t_dtype := float32; t_device := cpu; t_data := [] |}.

(** The stacked tensors on the device, where stacking goes through. *)
Definition stack_on (ts : list Tensor) (d : torch_device) : Tensor :=
  match torch_stack ts with
  | Ok x => moved_to x d
  | Raise _ => empty_tensor
  end.

(** The per-key batched tensors the keyed functions pass to the model. *)
Definition batched_by_key (batch : list (dict Tensor)) (d : torch_device)
  : dict Tensor :=
  map (fun key => (key, stack_on (column batch key) d))
      (dict_keys (group_by_key batch)).

(** The grouping loops started from groups already collected. *)
Definition group_from (batch : list (dict Tensor)) (d : dict (list Tensor))
  : dict (list Tensor) :=
  fold_left
    (fun key_to_tensor_list example =>
       fold_left (fun d kt => defaultdict_append d (fst kt) (snd kt))
                 example key_to_tensor_list)
    batch d.

(** A keyed batch whose second example lacks the key [mask]. *)
Definition example_full : dict Tensor := [("x", vec_a); ("mask", vec_b)].
Definition example_short : dict Tensor := [("x", vec_b)].
Definition ragged_batch : list (dict Tensor) := [example_full; example_short].

(** A keyed batch with one key set and tensors of two shapes under it. *)
Definition scalar_pair : Tensor :=
  {| t_shape := [2]; t_dtype := float32; t_device := cpu;
     t_data := [1; 2]%Z |}.

Definition uneven_batch : list (dict Tensor) :=
  [[("x", vec_a)]; [("x", scalar_pair)]].

(** A keyed batch of two examples with the keys [x] and [mask]. *)
Definition keyed_batch : list (dict Tensor) :=
  [[("x", vec_a); ("mask", vec_b)]; [("mask", vec_a); ("x", vec_b)]].




(** A keyed handler built with the defaults. *)
Definition keyed_cpu_handler : PytorchModelHandlerKeyedTensor.t :=
  {| PytorchModelHandlerKeyedTensor._state_dict_path := "m.pt";
     PytorchModelHandlerKeyedTensor._device := cpu;
     PytorchModelHandlerKeyedTensor._model_class := identity_class;
     PytorchModelHandlerKeyedTensor._model_params := [];
     PytorchModelHandlerKeyedTensor._inference_fn :=
       default_keyed_tensor_inference_fn;
     PytorchModelHandlerKeyedTensor._batching_kwargs := [] |}.

(** The host has the device, at the moment of [w] and for as long as the
    call goes on from there. *)
Definition has_device (w : World) (d : torch_device) : Prop :=
  d = cuda -> forall evs, cuda_is_available (env w) (log w ++ evs) = true.

(** A machine without accelerator on which the weights cannot be
    deserialized. *)
Definition world_cpu_only_corrupt : World :=
  {| env := const_env false (fun _ => Raise bad_pickle); log := [] |}.



(** A keyed example holding one two-dimensional tensor. *)
Definition matrix_example : dict Tensor := [("x", tensor_2x3)].

(** * Further reference definitions and sample data *)

(** The events of an attempt that goes through: its deserialization, the
    weights applied, the closing log line. *)
Definition success_events (path : string) (requested : torch_device)
    (available : bool) : list event :=
  attempt_events path requested available
    ++ [EvLoadStateDict; LogInfo "Finished loading PyTorch model."].

(** The model a successful load hands back: the constructed model with
    the weights applied, moved to the device, in evaluation mode. *)
Definition ready_model (model : Module) (sd : state_dict)
    (d : torch_device) : Module :=
  module_eval (module_to (module_with_state model sd) d).

Definition event_is_warning (e : event) : bool :=
  match e with LogWarning _ => true | _ => false end.

(** A file that is not there, and a state dict of another model. *)
Definition no_such_file : exn := Exn OSError "No such file or directory".
Definition unexpected_keys : exn :=
  Exn RuntimeError "Error(s) in loading state_dict: unexpected key(s)".
Definition eof_error : exn := Exn ValueError "Ran out of input".

(** A machine with an accelerator where the weights file is truncated:
    deserializing stops with an error that is no runtime error. *)
Definition world_truncated : World :=
  {| env := const_env true (fun _ => Raise eof_error); log := [] |}.

(** A model class whose models reject every state dict. *)
Definition picky_model : Module :=
  {| forward := forward identity_model;
     methods := [];
     accepts := fun _ => Raise unexpected_keys;
     m_state := None;
     m_device := cpu;
     m_training := true |}.

Definition picky_class : model_class_t := fun _ => Ok picky_model.

(** A model class whose constructor refuses its parameters. *)
Definition bad_params : exn :=
  Exn TypeError "__init__() got an unexpected keyword argument".
Definition failing_class : model_class_t := fun _ => Raise bad_params.

(** A machine whose storage has no such file. *)
Definition world_no_file : World :=
  {| env := {| cuda_is_available := fun _ => true;
               FileSystems_open := fun _ _ => Raise no_such_file;
               torch_load := fun _ _ _ => Ok [1; 2; 3] |};
     log := [] |}.

(** The weights location after [update_model_path(model_path)]: the new
    path when one is given and it is not empty. *)
Definition effective_path (old : string) (model_path : option string)
  : string :=
  match model_path with
  | Some (String a s) => String a s
  | _ => old
  end.

(** The method [getattr(model, name)] finds, when there is one. *)
Definition lookup_method (m : Module) (name : string) : option callable :=
  if String.eqb name "forward" then Some (forward m)
  else dict_get (methods m) name.

Definition no_attribute (name : string) : exn :=
  Exn AttributeError
      ("'Module' object has no attribute '" ++ name ++ "'")%string.

Definition none_is_no_mapping : exn :=
  Exn TypeError "argument after ** must be a mapping, not NoneType".

Definition multiple_values (k : string) : exn :=
  Exn TypeError
      ("got multiple values for keyword argument '" ++ k ++ "'")%string.

(** The number of tensors held in the groups, and in the batch. *)
Definition grouped_count (d : dict (list Tensor)) : nat :=
  list_sum (map (fun kl => List.length (snd kl)) d).

Definition batch_count (batch : list (dict Tensor)) : nat :=
  list_sum (map (fun ex => List.length ex) batch).

(** A 0-d tensor. *)
Definition scalar_tensor : Tensor :=
  {| t_shape := []; t_dtype := float64; t_device := cpu;
     t_data := [7]%Z |}.

(** A model with a second entry point, [generate], that returns its
    input reversed along nothing: the same tensor. *)
Definition generating_model : Module :=
  {| forward := forward identity_model;
     methods := [("generate", forward identity_model)];
     accepts := fun _ => Ok tt;
     m_state := None;
     m_device := cpu;
     m_training := false |}.

(** A model whose call always fails. *)
Definition shape_mismatch : exn :=
  Exn RuntimeError "mat1 and mat2 shapes cannot be multiplied".

Definition failing_model : Module :=
  {| forward := fun _ _ => Raise shape_mismatch;
     methods := [];
     accepts := fun _ => Ok tt;
     m_state := None;
     m_device := cpu;
     m_training := false |}.

(** No key of the model parameters is named like one of the loader's own
    parameters. *)
Definition no_parameter_clash (params : dict pyval) : Prop :=
  forall k, In k (dict_keys params) -> ~ In k _load_model_parameters.

(** The events of the attempt that goes through, from its opening of the
    weights file on. *)
Definition final_attempt (path : string) (dev : torch_device) : list event :=
  [EvOpen path; LogInfo (loading_msg path dev); EvTorchLoad dev].

(** Model parameters holding a key named [device]. *)
Definition clashing_params : dict pyval :=
  [("input_dim", VInt 1); ("device", VStr "cpu")].

Definition clashing_handler : PytorchModelHandlerTensor.t :=
  {| PytorchModelHandlerTensor._state_dict_path := "m.pt";
     PytorchModelHandlerTensor._device := cpu;
     PytorchModelHandlerTensor._model_class := identity_class;
     PytorchModelHandlerTensor._model_params := clashing_params;
     PytorchModelHandlerTensor._inference_fn := default_tensor_inference_fn;
     PytorchModelHandlerTensor._batching_kwargs := [] |}.
(** * Properties *)

(** ** Devices and the monad *)

Lemma device_eqb_eq a b : device_eqb a b = true <-> a = b.
Proof. destruct a, b; simpl; split; congruence. Qed.

Lemma device_eqb_refl a : device_eqb a a = true.
Proof. now destruct a. Qed.

Lemma device_eqb_neq a b : device_eqb a b = false <-> a <> b.
Proof. destruct a, b; simpl; split; congruence. Qed.

Lemma bind_ok {A B} (m : M A) (k : A -> M B) w a w' :
  m w = (Ok a, w') -> bind m k w = k a w'.
Proof. unfold bind; now intros ->. Qed.

Lemma bind_raise {A B} (m : M A) (k : A -> M B) w e w' :
  m w = (Raise e, w') -> bind m k w = (Raise e, w').
Proof. unfold bind; now intros ->. Qed.

Lemma extend_nil w : extend w [] = w.
Proof. unfold extend. rewrite app_nil_r. now destruct w. Qed.

Lemma extend_extend w a b : extend (extend w a) b = extend w (a ++ b).
Proof. unfold extend; simpl. now rewrite app_assoc. Qed.

(** ** Byte counts *)

Lemma fold_left_add_sum {E} (f : E -> nat) (els : list E) (acc : nat) :
  fold_left (fun a el => a + f el) els acc = acc + list_sum (map f els).
Proof.
  revert acc; induction els as [|el els IH]; intros acc; simpl.
  - lia.
  - rewrite IH; lia.
Qed.

Lemma sum_gen_total {X E} (inner : X -> list E) (f : E -> nat) xs acc :
  sum_gen (fun x => Ok (inner x)) f xs acc
  = Ok (acc + list_sum (map f (flat_map inner xs))).
Proof.
  revert acc; induction xs as [|x xs IH]; intros acc; simpl.
  - f_equal; lia.
  - rewrite IH, fold_left_add_sum, map_app, list_sum_app. f_equal; lia.
Qed.

Lemma rows_length k n l : List.length (rows k n l) = n.
Proof. revert l; induction n; intros l; simpl; congruence. Qed.

Lemma tensor_iter_length t n s :
  t_shape t = n :: s ->
  exists slices, tensor_iter t = Ok slices /\ List.length slices = n
                 /\ Forall (fun u => t_dtype u = t_dtype t
                                     /\ t_shape u = s
                                     /\ t_device u = t_device t) slices.
Proof.
  intros Hs. unfold tensor_iter. rewrite Hs. eexists; split; [reflexivity|].
  split.
  - now rewrite length_map, rows_length.
  - apply Forall_forall. intros u Hu. apply in_map_iff in Hu.
    destruct Hu as (r & <- & _). simpl. auto.
Qed.

Lemma list_sum_const {E} (f : E -> nat) (c : nat) (l : list E) :
  Forall (fun u => f u = c) l -> list_sum (map f l) = List.length l * c.
Proof.
  induction 1 as [|u l Hu _ IH]; simpl; [reflexivity|]. rewrite Hu, IH. lia.
Qed.

(** What the plain handler's [get_num_bytes] computes: for each tensor,
    the length of its first dimension times the element width. *)
Lemma get_num_bytes_first_dim batch acc :
  Forall (fun t => t_shape t <> []) batch ->
  sum_gen tensor_iter element_size batch acc
  = Ok (acc + list_sum (map (fun t => hd 0 (t_shape t) * element_size t)
                            batch)).
Proof.
  intros H; revert acc; induction H as [|t batch Ht _ IH]; intros acc; simpl.
  - f_equal; lia.
  - destruct (t_shape t) as [|n s] eqn:Hs; [congruence|].
    destruct (tensor_iter_length t Hs) as (sl & -> & Hlen & Hall).
    rewrite IH, fold_left_add_sum.
    rewrite (@list_sum_const _ element_size (element_size t)).
    + simpl. rewrite Hlen. f_equal; lia.
    + eapply Forall_impl; [|exact Hall]. unfold element_size.
      intros u (-> & _); reflexivity.
Qed.

(** On a batch of one-dimensional tensors the count is the byte count. *)
Lemma get_num_bytes_vectors batch :
  Forall (fun t => exists n, t_shape t = [n]) batch ->
  PytorchModelHandlerTensor.get_num_bytes batch
  = Ok (list_sum (map (fun t => numel t * element_size t) batch)).
Proof.
  intros H. unfold PytorchModelHandlerTensor.get_num_bytes.
  rewrite get_num_bytes_first_dim.
  - simpl. do 2 f_equal. apply map_ext_in. intros t Ht.
    rewrite Forall_forall in H. destruct (H t Ht) as (n & Hn).
    unfold numel; rewrite Hn; simpl. lia.
  - eapply Forall_impl; [|exact H]. intros t (n & ->); discriminate.
Qed.

(** C3: [get_num_bytes] of the plain handler is documented to return the
    number of bytes of the batch, that is for each tensor its element
    count times its element width.  The code iterates each tensor, which
    walks its first dimension only: on one [float32] tensor of shape
    [[2; 3]] it returns 8, where the tensor holds 6 elements of 4 bytes,
    24 bytes. *)
Theorem get_num_bytes_counts_first_dimension_only :
  PytorchModelHandlerTensor.get_num_bytes [tensor_2x3] = Ok 8
  /\ list_sum (map (fun t => numel t * element_size t) [tensor_2x3]) = 24.
Proof. split; reflexivity. Qed.

(** What the keyed handler's [get_num_bytes] computes: one element width
    for every tensor of the batch, whatever the tensor's element count. *)
Lemma keyed_get_num_bytes_adds_element_sizes (batch : list (dict Tensor)) :
  PytorchModelHandlerKeyedTensor.get_num_bytes batch
  = Ok (list_sum (map element_size (keyed_batch_tensors batch))).
Proof.
  unfold PytorchModelHandlerKeyedTensor.get_num_bytes.
  now rewrite sum_gen_total.
Qed.

(** C4: [get_num_bytes] of the keyed handler is documented to return the
    number of bytes of the batch, the storage of all tensors that the
    examples' dictionaries hold.  The code adds [el.element_size()] once
    for each tensor and never looks at its element count: on one example
    holding a [float32] tensor of shape [[2; 3]] it returns 4, where the
    tensor's storage is 6 elements of 4 bytes, 24 bytes. *)
Theorem keyed_get_num_bytes_counts_one_element_per_tensor :
  PytorchModelHandlerKeyedTensor.get_num_bytes [matrix_example] = Ok 4
  /\ list_sum (map tensor_nbytes (keyed_batch_tensors [matrix_example]))
     = 24.
Proof. split; reflexivity. Qed.

(** ** Device selection in the constructors *)

(** C10: in both constructors the accelerator device is selected exactly
    when the device argument is the string ['GPU']; any other string
    selects the CPU device, and the constructor returns without error,
    logging one informational line. *)
Theorem init_selects_cuda_iff_GPU
    (state_dict_path : string) (model_class : model_class_t)
    (model_params : dict pyval) (device : string)
    (fn : TensorInferenceFn) (kfn : KeyedTensorInferenceFn)
    (min_batch_size max_batch_size : option nat) (w : World) :
  (exists h msg,
      PytorchModelHandlerTensor.__init__ state_dict_path model_class
        model_params device fn min_batch_size max_batch_size w
      = (Ok h, {| env := env w; log := log w ++ [LogInfo msg] |})
      /\ (PytorchModelHandlerTensor._device h = cuda <-> device = "GPU")
      /\ (PytorchModelHandlerTensor._device h = cpu <-> device <> "GPU"))
  /\
  (exists h msg,
      PytorchModelHandlerKeyedTensor.__init__ state_dict_path model_class
        model_params device kfn min_batch_size max_batch_size w
      = (Ok h, {| env := env w; log := log w ++ [LogInfo msg] |})
      /\ (PytorchModelHandlerKeyedTensor._device h = cuda <-> device = "GPU")
      /\ (PytorchModelHandlerKeyedTensor._device h = cpu
          <-> device <> "GPU")).
Proof.
  unfold PytorchModelHandlerTensor.__init__,
    PytorchModelHandlerKeyedTensor.__init__.
  destruct (String.eqb device "GPU") eqn:E.
  - apply String.eqb_eq in E.
    split; do 2 eexists; (split; [reflexivity|]); simpl;
      split; split; intros; congruence.
  - apply String.eqb_neq in E.
    split; do 2 eexists; (split; [reflexivity|]); simpl;
      split; split; intros; congruence.
Qed.

(** The spellings that do not select the accelerator. *)
Example init_other_spellings_select_cpu :
  Forall (fun device =>
            forall h w',
              PytorchModelHandlerTensor.__init__ "m.pt" identity_class
                [] device default_tensor_inference_fn None None world_cpu_only
              = (Ok h, w') ->
              PytorchModelHandlerTensor._device h = cpu)
         ["gpu"; "cuda"; "CUDA"; "CPU"; ""; "GPU "].
Proof.
  repeat constructor; intros h w' H; inversion H; reflexivity.
Qed.

(** ** The device normalizer *)

(** C8: a tensor already resident on the target device comes back as it
    is, and nothing is done to the world (no copy, no transfer); a
    transfer is performed only when the tensor is elsewhere: then, on a
    host that has the target device, exactly one, giving a tensor on the
    target device, and on a host without the accelerator asked for, none,
    the move raising its runtime error. *)
Theorem convert_to_device_resident_is_identity
    (examples : Tensor) (device : torch_device) (w : World) :
  (t_device examples = device ->
   _convert_to_device examples device w = (Ok examples, w))
  /\
  (t_device examples <> device ->
   (device = cuda -> cuda_is_available (env w) (log w) = true) ->
   exists moved w',
     _convert_to_device examples device w = (Ok moved, w')
     /\ t_device moved = device
     /\ t_shape moved = t_shape examples
     /\ t_dtype moved = t_dtype examples
     /\ t_data moved = t_data examples
     /\ transfers w' = S (transfers w))
  /\
  (t_device examples <> device ->
   device = cuda ->
   cuda_is_available (env w) (log w) = false ->
   _convert_to_device examples device w = (Raise no_cuda, w)).
Proof.
  unfold _convert_to_device, tensor_to. split; [|split].
  - intros H. apply device_eqb_eq in H. rewrite H. reflexivity.
  - intros H Hav. apply device_eqb_neq in H. rewrite H. simpl.
    unfold bind, ask, emit, ret. simpl.
    assert (E : device_eqb device cuda
                && negb (cuda_is_available (env w) (log w)) = false).
    { destruct device; [reflexivity|]. now rewrite Hav. }
    rewrite E.
    do 2 eexists. split; [reflexivity|]. simpl. repeat split.
    unfold transfers; simpl.
    rewrite filter_app, length_app. simpl. lia.
  - intros H -> Hav. apply device_eqb_neq in H. rewrite H. simpl.
    unfold bind, ask, raise. simpl. now rewrite Hav.
Qed.

Lemma convert_to_device_resident_is_identity_witness :
  (t_device tensor_2x3 = cpu
   /\ _convert_to_device tensor_2x3 cpu world_cpu_only
      = (Ok tensor_2x3, world_cpu_only))
  /\ (t_device tensor_2x3 <> cuda
      /\ exists moved w',
        _convert_to_device tensor_2x3 cuda world_gpu = (Ok moved, w')
        /\ t_device moved = cuda
        /\ t_shape moved = t_shape tensor_2x3
        /\ t_dtype moved = t_dtype tensor_2x3
        /\ t_data moved = t_data tensor_2x3
        /\ transfers w' = S (transfers world_gpu))
  /\ _convert_to_device tensor_2x3 cuda world_cpu_only
     = (Raise no_cuda, world_cpu_only).
Proof.
  assert (Hne : t_device tensor_2x3 <> cuda) by (simpl; discriminate).
  split; [|split].
  - split; [reflexivity|].
    apply (proj1 (convert_to_device_resident_is_identity
                    tensor_2x3 cpu world_cpu_only)).
    reflexivity.
  - split; [exact Hne|].
    apply (proj1 (proj2 (convert_to_device_resident_is_identity
                           tensor_2x3 cuda world_gpu)) Hne).
    reflexivity.
  - apply (proj2 (proj2 (convert_to_device_resident_is_identity
                           tensor_2x3 cuda world_cpu_only)) Hne);
      reflexivity.
Defined.

(** ** The named-method variants *)

(** C9: the keyed named-method inference function applied to an empty
    batch raises an unbound-variable error: its loop over the keys never
    runs, so [pred_fn] is never assigned, no attribute of the model is
    looked up, and the call of [pred_fn] is reached all the same.  The
    plain named-method variant looks the method up outside any loop:
    whenever the stacking and the move to the device succeed the lookup
    is performed, before any call of the model; when either fails (the
    stacking does on the empty batch) the run stops there with that
    error. *)
Theorem keyed_named_method_unbound_on_empty_batch
    (model_fn : string) (model : Module) (device : torch_device)
    (inference_args : option (dict pyval)) (mid : option string)
    (w : World) :
  make_keyed_tensor_model_fn model_fn [] model device inference_args mid w
  = (Raise unbound_pred_fn, w)
  /\
  (forall batch,
      let run := make_tensor_model_fn model_fn batch model device
                   inference_args mid w in
      match torch_stack batch with
      | Raise e => run = (Raise e, w)
      | Ok x =>
          match _convert_to_device x device w with
          | (Raise e, w1) => run = (Raise e, w1)
          | (Ok _, w1) =>
              exists pre post,
                w1 = extend w pre
                /\ filter event_is_invoke pre = []
                /\ log (snd run) = log w ++ pre ++ EvGetattr model_fn :: post
          end
      end).
Proof.
  split; [reflexivity|].
  intros batch run; subst run. unfold make_tensor_model_fn.
  destruct (torch_stack batch) as [x|e] eqn:Hs; [|reflexivity].
  destruct (_convert_to_device x device w) as [[x'|e] w1] eqn:Hc.
  2:{ unfold bind at 1. unfold lift at 1. unfold bind at 1.
      now rewrite Hc. }
  unfold bind at 1. unfold lift at 1. unfold bind at 1. rewrite Hc.
  assert (Hpre : exists pre, w1 = extend w pre
                             /\ filter event_is_invoke pre = []).
  { revert Hc. unfold _convert_to_device, tensor_to.
    destruct (device_eqb (t_device x) device); simpl.
    - intros [= _ <-]. exists []. now rewrite extend_nil.
    - unfold bind, ask, emit, ret, raise. simpl.
      destruct (device_eqb device cuda && _); [discriminate|].
      intros [= _ <-]. eexists [_]. split; reflexivity. }
  destruct Hpre as (pre & -> & Hpre).
  exists pre.
  unfold getattr, bind, emit, lift, ret, raise, invoke, extend; simpl.
  destruct (String.eqb model_fn "forward");
    [|destruct (dict_get (methods model) model_fn)];
    destruct (unpack inference_args); simpl;
    try (match goal with
         | |- context [?f [x'] ?d] => destruct (f [x'] d)
         end; simpl);
    try (match goal with
         | |- context [_convert_to_result ?b ?p ?m] =>
             destruct (_convert_to_result b p m)
         end; simpl);
    eexists; (split; [reflexivity|]); (split; [exact Hpre|]);
    rewrite <- ?app_assoc; simpl; reflexivity.
Qed.

(** The two variants on the empty batch, side by side. *)
Example named_method_variants_on_empty_batch :
  make_keyed_tensor_model_fn "generate" [] identity_model cpu (Some [])
    (Some "m.pt") world_cpu_only
  = (Raise unbound_pred_fn, world_cpu_only)
  /\ make_tensor_model_fn "generate" [] identity_model cpu (Some [])
       (Some "m.pt") world_cpu_only
     = (Raise (Exn RuntimeError "stack expects a non-empty TensorList"),
        world_cpu_only).
Proof. split; reflexivity. Qed.

(** The same error on a batch of examples without any key. *)
Example keyed_named_method_unbound_without_keys :
  make_keyed_tensor_model_fn "generate" [[]; []] identity_model cpu
    (Some []) (Some "m.pt") world_cpu_only
  = (Raise unbound_pred_fn, world_cpu_only).
Proof. reflexivity. Qed.

(** ** The model loader *)

(** One call of the loader, written out: what it asks of the environment
    and in which world, what it logs, and where it calls itself. *)
Lemma _load_model_rec_step (d : nat) (model_class : model_class_t)
    (path : string) (device : torch_device) (params : dict pyval)
    (w : World) :
  _load_model_rec (S d) model_class path device params w =
  match model_class params with
  | Raise e => (Raise e, extend w [EvConstruct])
  | Ok model =>
      let fb := device_eqb device cuda
                && negb (cuda_is_available (env w) (log w ++ [EvConstruct]))
      in
      let dev := if fb then cpu else device in
      let pre := if fb then [EvConstruct; LogWarning gpu_unavailable_msg;
                             EvOpen path]
                 else [EvConstruct; EvOpen path] in
      match FileSystems_open (env w) (log w ++ pre) path with
      | Raise e => (Raise e, extend w pre)
      | Ok file =>
          let try := pre ++ [LogInfo (loading_msg path dev);
                             EvTorchLoad dev] in
          match torch_load (env w) (log w ++ try) file dev with
          | Ok sd =>
              match accepts model sd with
              | Raise e => (Raise e, extend w (try ++ [EvLoadStateDict]))
              | Ok _ =>
                  (Ok (module_eval
                         (module_to (module_with_state model sd) dev), dev),
                   extend w
                     (try ++ [EvLoadStateDict;
                              LogInfo "Finished loading PyTorch model."]))
              end
          | Raise e =>
              if is_RuntimeError e && device_eqb dev cuda
              then _load_model_rec d model_class path cpu params
                     (extend w (try ++ [LogWarning (gpu_failed_msg e)]))
              else (Raise e, extend w try)
          end
      end
  end.
Proof.
  cbn [_load_model_rec].
  unfold load_state_dict, logging_info, logging_warning,
    try_except_RuntimeError.
  unfold bind, emit, lift, ask, ret, raise, extend; simpl.
  destruct (model_class params) as [model|e]; [|reflexivity].
  destruct (device_eqb device cuda
            && negb (cuda_is_available (env w) (log w ++ [EvConstruct])))
    eqn:Hfb; simpl; rewrite <- ?app_assoc; simpl.
  - destruct (FileSystems_open _ _ path) as [file|e]; [|reflexivity].
    rewrite <- ?app_assoc; simpl.
    destruct (torch_load _ _ file cpu) as [sd|e]; simpl.
    + destruct (accepts model sd); simpl; rewrite <- ?app_assoc; reflexivity.
    + destruct (is_RuntimeError e); reflexivity.
  - destruct (FileSystems_open _ _ path) as [file|e]; [|reflexivity].
    rewrite <- ?app_assoc; simpl.
    destruct (torch_load _ _ file device) as [sd|e]; simpl.
    + destruct (accepts model sd); simpl; rewrite <- ?app_assoc; reflexivity.
    + destruct (is_RuntimeError e); simpl; [|reflexivity].
      destruct (device_eqb device cuda); simpl; [|reflexivity].
      rewrite <- ?app_assoc; simpl.
      destruct (_load_model_rec d model_class path cpu params _)
        as [[r|e'] w']; reflexivity.
Qed.

Arguments _load_model_rec : simpl never.

(** A call for the CPU never calls itself: any positive depth gives the
    same result. *)
Lemma _load_model_rec_cpu_depth d d' model_class path params w :
  _load_model_rec (S d) model_class path cpu params w
  = _load_model_rec (S d') model_class path cpu params w.
Proof.
  rewrite !_load_model_rec_step. simpl.
  destruct (model_class params); [|reflexivity].
  destruct (FileSystems_open _ _ path); [|reflexivity].
  destruct (torch_load _ _ _ cpu) as [sd|e]; [reflexivity|].
  now rewrite andb_false_r.
Qed.

(** The loader ends: two frames are all it ever needs, and more room
    changes nothing. *)
Lemma _load_model_rec_depth d model_class path device params w :
  _load_model_rec (S (S d)) model_class path device params w
  = _load_model_rec 2 model_class path device params w.
Proof.
  rewrite (_load_model_rec_step (S d)), (_load_model_rec_step 1).
  destruct (model_class params); [|reflexivity].
  cbv zeta.
  destruct (FileSystems_open _ _ path); [|reflexivity].
  destruct (torch_load _ _ _ _) as [sd|e]; [reflexivity|].
  destruct (is_RuntimeError e && _); [|reflexivity].
  apply _load_model_rec_cpu_depth.
Qed.

Lemma _load_model_depth d model_class path device params w :
  _load_model model_class path device params w
  = _load_model_rec (S (S d)) model_class path device params w.
Proof.
  unfold _load_model. change recursion_limit with (S (S 998)).
  now rewrite !_load_model_rec_depth.
Qed.

(** A run that ends here: read the outcome off the equation and exhibit
    the events. *)
Ltac ends_here :=
  intros [= <- <-]; eexists; split; [reflexivity|]; simpl; auto.

(** What a call for the CPU does and returns. *)
Lemma _load_model_cpu_trace model_class path params w r w' :
  _load_model model_class path cpu params w = (r, w') ->
  exists evs,
    w' = extend w evs
    /\ (loads evs = [] \/ loads evs = [EvTorchLoad cpu])
    /\ (forall m dev, r = Ok (m, dev) ->
                      dev = cpu /\ m_device m = cpu
                      /\ loads evs = [EvTorchLoad cpu]).
Proof.
  rewrite (_load_model_depth 0), _load_model_rec_step. simpl.
  destruct (model_class params) as [model|e];
    [|ends_here; split; [auto|discriminate]].
  destruct (FileSystems_open _ _ path) as [file|e];
    [|ends_here; split; [auto|discriminate]].
  destruct (torch_load _ _ _ cpu) as [sd|e].
  - destruct (accepts model sd); ends_here; split; auto; try discriminate.
    intros m dev [= <- <-]. auto.
  - rewrite andb_false_r. ends_here. split; [auto|discriminate].
Qed.

(** The loader deserializes at most twice, and the second time only on
    the CPU after a first time on the accelerator. *)
Lemma _load_model_loads model_class path device params w r w' :
  _load_model model_class path device params w = (r, w') ->
  exists evs, w' = extend w evs /\ In (loads evs) load_patterns.
Proof.
  destruct device.
  { intros H. destruct (_load_model_cpu_trace _ _ _ _ H)
      as (evs & -> & [Hl|Hl] & _); exists evs; (split; [reflexivity|]);
      rewrite Hl; simpl; auto. }
  rewrite (_load_model_depth 0), _load_model_rec_step.
  destruct (model_class params) as [model|e]; [|ends_here].
  cbv zeta.
  destruct (device_eqb cuda cuda && _) eqn:Hfb.
  - destruct (FileSystems_open _ _ path) as [file|e]; [|ends_here].
    destruct (torch_load _ _ _ cpu) as [sd|e].
    + destruct (accepts model sd); ends_here.
    + rewrite andb_false_r. ends_here.
  - destruct (FileSystems_open _ _ path) as [file|e]; [|ends_here].
    destruct (torch_load _ _ _ cuda) as [sd|e].
    + destruct (accepts model sd); ends_here.
    + destruct (is_RuntimeError e); simpl; [|ends_here].
      rewrite (_load_model_rec_cpu_depth 0 998).
      change (_load_model_rec 999) with _load_model at 1.
      fold recursion_limit.
      intros H. destruct (_load_model_cpu_trace _ _ _ _ H)
        as (evs & -> & Hl & _).
      rewrite extend_extend. eexists; split; [reflexivity|].
      unfold loads in *. rewrite !filter_app. simpl.
      destruct Hl as [-> | ->]; simpl; auto.
Qed.

Lemma target_device_cuda requested available :
  target_device requested available = cuda ->
  requested = cuda /\ available = true.
Proof.
  unfold target_device. destruct requested, available; simpl; auto;
    discriminate.
Qed.

Lemma target_device_cpu requested available :
  target_device requested available = cpu ->
  device_eqb (target_device requested available) cuda = false.
Proof. now intros ->. Qed.

(** C5: when deserializing the weights onto the accelerator fails with a
    runtime error, the loader logs a warning that carries the error's
    message, the cause, and runs the entire load again with the CPU as
    device; when deserializing fails while the
    target is the CPU (requested, substituted, or on that retry), the
    error comes out as it was raised and nothing is tried again.  In all,
    a call deserializes at most twice: once on the accelerator, then once
    on the CPU. *)
Theorem load_model_retries_once_on_cpu
    (model_class : model_class_t) (path : string) (params : dict pyval)
    (w : World) :
  let available := cuda_is_available (env w) (log w ++ [EvConstruct]) in
  (forall requested model file e,
      let target := target_device requested available in
      model_class params = Ok model ->
      FileSystems_open (env w)
        (log w ++ before_open requested available ++ [EvOpen path]) path
      = Ok file ->
      torch_load (env w)
        (log w ++ attempt_events path requested available) file target
      = Raise e ->
      (target = cuda -> is_RuntimeError e = true ->
       _load_model model_class path requested params w
       = _load_model model_class path cpu params
           (extend w
              (attempt_events path requested available
                 ++ [LogWarning
                       ("Loading the model onto a GPU device failed "
                          ++ "due to an exception:" ++ nl
                          ++ exn_msg e ++ nl
                          ++ "Attempting to load onto a CPU device "
                          ++ "instead.")%string])))
      /\
      (target = cpu ->
       _load_model model_class path requested params w
       = (Raise e, extend w (attempt_events path requested available))))
  /\
  (forall device r w',
      _load_model model_class path device params w = (r, w') ->
      exists evs, w' = extend w evs /\ In (loads evs) load_patterns).
Proof.
  intros available. split.
  - intros requested model file e target Hm Ho Hl.
    rewrite (_load_model_depth 0), _load_model_rec_step, Hm. cbv zeta.
    fold available. subst target.
    unfold attempt_events, before_open, target_device in *.
    destruct (device_eqb requested cuda && negb available) eqn:Hfb;
      simpl in Ho, Hl |- *; rewrite Ho, Hl; split.
    + discriminate.
    + intros _. now rewrite andb_false_r.
    + intros -> ->. simpl.
      rewrite (_load_model_rec_cpu_depth 0 998). reflexivity.
    + intros ->. now rewrite andb_false_r.
  - intros device r w'. apply _load_model_loads.
Qed.

Lemma load_model_retries_once_on_cpu_witness :
  (_load_model identity_class "m.pt" cuda [] world_gpu_fails
   = _load_model identity_class "m.pt" cpu []
       (extend world_gpu_fails
          (attempt_events "m.pt" cuda true
             ++ [LogWarning
                   ("Loading the model onto a GPU device failed "
                      ++ "due to an exception:" ++ nl
                      ++ exn_msg cuda_oom ++ nl
                      ++ "Attempting to load onto a CPU device "
                      ++ "instead.")%string])))
  /\ (_load_model identity_class "m.pt" cpu [] world_corrupt
      = (Raise bad_pickle,
         extend world_corrupt (attempt_events "m.pt" cpu true)))
  /\ (exists evs,
         snd (_load_model identity_class "m.pt" cuda [] world_corrupt)
         = extend world_corrupt evs
         /\ In (loads evs) load_patterns).
Proof.
  split; [|split].
  - apply (proj1 (load_model_retries_once_on_cpu
                    identity_class "m.pt" [] world_gpu_fails)
             cuda identity_model [80; 75] cuda_oom);
      reflexivity.
  - apply (proj1 (load_model_retries_once_on_cpu
                    identity_class "m.pt" [] world_corrupt)
             cpu identity_model [80; 75] bad_pickle);
      reflexivity.
  - apply (proj2 (load_model_retries_once_on_cpu
                    identity_class "m.pt" [] world_corrupt)
             cuda
             (fst (_load_model identity_class "m.pt" cuda [] world_corrupt))).
    apply surjective_pairing.
Defined.

(** The two failures in a row: the accelerator's is logged, the CPU's is
    the one raised, and the trace shows the two attempts and no third. *)
Example load_fails_on_both_devices :
  _load_model identity_class "m.pt" cuda [] world_corrupt
  = (Raise bad_pickle,
     extend world_corrupt
       [EvConstruct; EvOpen "m.pt";
        LogInfo "Loading state_dict_path m.pt onto a cuda device";
        EvTorchLoad cuda;
        LogWarning (gpu_failed_msg bad_pickle);
        EvConstruct; EvOpen "m.pt";
        LogInfo "Loading state_dict_path m.pt onto a cpu device";
        EvTorchLoad cpu]).
Proof. vm_compute. reflexivity. Qed.

(** The accelerator fails once and the CPU takes over: no error reaches
    the caller, and the model is resident on the CPU. *)
Example load_falls_back_to_cpu :
  exists m w',
    _load_model identity_class "m.pt" cuda [] world_gpu_fails
    = (Ok (m, cpu), w')
    /\ m_device m = cpu /\ m_training m = false
    /\ loads (log w') = [EvTorchLoad cuda; EvTorchLoad cpu].
Proof. do 2 eexists. vm_compute. repeat split. Qed.

(** ** The recorded device *)

(** A successful call for the accelerator either used it, and then logged
    no warning, or ended on the CPU. *)
Lemma _load_model_cuda_ok model_class path params w m dev w' :
  _load_model model_class path cuda params w = (Ok (m, dev), w') ->
  (dev = cuda
   /\ w' = extend w [EvConstruct; EvOpen path;
                     LogInfo (loading_msg path cuda); EvTorchLoad cuda;
                     EvLoadStateDict;
                     LogInfo "Finished loading PyTorch model."])
  \/ (dev = cpu /\ m_device m = cpu).
Proof.
  rewrite (_load_model_depth 0), _load_model_rec_step.
  destruct (model_class params) as [model|e]; [|discriminate].
  cbv zeta.
  destruct (device_eqb cuda cuda && _) eqn:Hfb.
  - destruct (FileSystems_open _ _ path) as [file|e]; [|discriminate].
    destruct (torch_load _ _ _ cpu) as [sd|e].
    + destruct (accepts model sd); [|discriminate].
      intros [= <- <- <-]. right. auto.
    + rewrite andb_false_r. discriminate.
  - destruct (FileSystems_open _ _ path) as [file|e]; [|discriminate].
    destruct (torch_load _ _ _ cuda) as [sd|e].
    + destruct (accepts model sd); [|discriminate].
      intros [= <- <- <-]. left. auto.
    + destruct (is_RuntimeError e); simpl; [|discriminate].
      rewrite (_load_model_rec_cpu_depth 0 998).
      change (_load_model_rec 999) with _load_model at 1.
      fold recursion_limit.
      intros H.
      destruct (_load_model_cpu_trace _ _ _ _ H) as (evs & _ & _ & Hok).
      destruct (Hok m dev eq_refl) as (-> & -> & _). right; auto.
Qed.

Lemma extend_inj w a b : extend w a = extend w b -> a = b.
Proof.
  unfold extend. intros [= H]. now apply app_inv_head in H.
Qed.

(** A handler whose recorded device is the CPU keeps it through a call of
    [load_model], whatever the world and whatever the outcome, and the
    call deserializes on the CPU only. *)
Lemma tensor_load_model_on_cpu (h : PytorchModelHandlerTensor.t) w r h' w' :
  PytorchModelHandlerTensor._device h = cpu ->
  PytorchModelHandlerTensor.load_model h w = (r, h', w') ->
  PytorchModelHandlerTensor._device h' = cpu
  /\ (exists evs, w' = extend w evs
                  /\ (loads evs = [] \/ loads evs = [EvTorchLoad cpu]))
  /\ (forall m, r = Ok m -> m_device m = cpu).
Proof.
  intros Hd. unfold PytorchModelHandlerTensor.load_model.
  destruct (find names_parameter _) as [k|].
  { intros [= <- <- <-]. split; [exact Hd|]. split; [|discriminate].
    exists []. rewrite extend_nil. auto. }
  rewrite Hd.
  destruct (_load_model _ _ cpu _ w) as [[[m dev]|e] w1] eqn:Hl;
    intros [= <- <- <-];
    destruct (_load_model_cpu_trace _ _ _ _ Hl) as (evs & -> & Hloads & Hok).
  - destruct (Hok m dev eq_refl) as (-> & Hm & _).
    split; [reflexivity|]. split; [eauto|]. now intros ? [= <-].
  - split; [exact Hd|]. split; [eauto|]. discriminate.
Qed.

Lemma tensor_handler_calls_keep_cpu calls :
  forall h, PytorchModelHandlerTensor._device h = cpu ->
            PytorchModelHandlerTensor._device
              (fold_left tensor_handler_call calls h) = cpu.
Proof.
  induction calls as [|c calls IH]; intros h Hd; simpl; [exact Hd|].
  apply IH. destruct c as [w|p]; simpl.
  - destruct (PytorchModelHandlerTensor.load_model h w) as [[r h'] w'] eqn:E.
    simpl. now destruct (tensor_load_model_on_cpu h w Hd E).
  - destruct p as [[|a s]|]; simpl; exact Hd.
Qed.

(** C6, as amended: once a call of [load_model] on a handler set for the
    accelerator has returned after falling back to the CPU (the
    accelerator was not there, or loading onto it failed and the retry on
    the CPU went through), the handler's recorded device is the CPU and
    stays so through every later call of the handler; each later
    [load_model], in whatever world, deserializes on the CPU only and
    gives a model on the CPU. *)
Theorem fallback_to_cpu_is_permanent
    (h : PytorchModelHandlerTensor.t) (w : World)
    (m : Module) (h1 : PytorchModelHandlerTensor.t) (w1 : World) :
  PytorchModelHandlerTensor._device h = cuda ->
  PytorchModelHandlerTensor.load_model h w = (Ok m, h1, w1) ->
  fell_back w w1 ->
  PytorchModelHandlerTensor._device h1 = cpu
  /\ m_device m = cpu
  /\ forall calls,
      let h2 := fold_left tensor_handler_call calls h1 in
      PytorchModelHandlerTensor._device h2 = cpu
      /\ forall w2 r h3 w3,
          PytorchModelHandlerTensor.load_model h2 w2 = (r, h3, w3) ->
          PytorchModelHandlerTensor._device h3 = cpu
          /\ (exists evs, w3 = extend w2 evs
                          /\ (loads evs = [] \/ loads evs = [EvTorchLoad cpu]))
          /\ (forall m', r = Ok m' -> m_device m' = cpu).
Proof.
  intros Hd Hload (evs & Hw1 & Hwarn).
  unfold PytorchModelHandlerTensor.load_model in Hload.
  destruct (find names_parameter _) as [k|]; [discriminate|].
  rewrite Hd in Hload.
  destruct (_load_model _ _ cuda _ w) as [[[m0 dev]|e] w0] eqn:Hl;
    [|discriminate].
  injection Hload as <- <- <-.
  assert (Hcpu : dev = cpu /\ m_device m0 = cpu).
  { destruct (_load_model_cuda_ok _ _ _ _ Hl) as [(_ & Hw0)|H]; [|exact H].
    exfalso. rewrite Hw0 in Hw1. apply extend_inj in Hw1. subst evs.
    destruct Hwarn as [Hin|(e & Hin)]; simpl in Hin;
      repeat (destruct Hin as [Hin|Hin]; [discriminate|]); exact Hin. }
  destruct Hcpu as (-> & Hm).
  split; [reflexivity|]. split; [exact Hm|].
  intros calls h2.
  assert (H2 : PytorchModelHandlerTensor._device h2 = cpu)
    by (apply tensor_handler_calls_keep_cpu; reflexivity).
  split; [exact H2|].
  intros w2 r h3 w3. now apply tensor_load_model_on_cpu.
Qed.

Lemma fallback_to_cpu_is_permanent_witness :
  PytorchModelHandlerTensor._device gpu_handler = cuda
  /\ PytorchModelHandlerTensor.load_model gpu_handler world_gpu_fails
     = (Ok identity_on_cpu,
        PytorchModelHandlerTensor.set_device gpu_handler cpu,
        extend world_gpu_fails fallback_trace)
  /\ fell_back world_gpu_fails (extend world_gpu_fails fallback_trace)
  /\ PytorchModelHandlerTensor._device
       (PytorchModelHandlerTensor.set_device gpu_handler cpu) = cpu
  /\ m_device identity_on_cpu = cpu
  /\ forall calls,
      let h2 := fold_left tensor_handler_call calls
                  (PytorchModelHandlerTensor.set_device gpu_handler cpu) in
      PytorchModelHandlerTensor._device h2 = cpu
      /\ forall w2 r h3 w3,
          PytorchModelHandlerTensor.load_model h2 w2 = (r, h3, w3) ->
          PytorchModelHandlerTensor._device h3 = cpu
          /\ (exists evs, w3 = extend w2 evs
                          /\ (loads evs = [] \/ loads evs = [EvTorchLoad cpu]))
          /\ (forall m', r = Ok m' -> m_device m' = cpu).
Proof.
  assert (Hd : PytorchModelHandlerTensor._device gpu_handler = cuda)
    by reflexivity.
  assert (Hl : PytorchModelHandlerTensor.load_model gpu_handler
                 world_gpu_fails
               = (Ok identity_on_cpu,
                  PytorchModelHandlerTensor.set_device gpu_handler cpu,
                  extend world_gpu_fails fallback_trace))
    by (vm_compute; reflexivity).
  assert (Hf : fell_back world_gpu_fails
                 (extend world_gpu_fails fallback_trace)).
  { exists fallback_trace. split; [reflexivity|].
    right. exists cuda_oom. simpl. auto 10. }
  split; [exact Hd|]. split; [exact Hl|]. split; [exact Hf|].
  exact (@fallback_to_cpu_is_permanent gpu_handler world_gpu_fails
           _ _ _ Hd Hl Hf).
Defined.

(** C6, as stated, fails when the accelerator is not there and the load
    then fails on the CPU: the call logs the fallback warning and raises,
    so nothing is recorded and the handler's device is still the
    accelerator; the next load, on a machine that has one, deserializes
    onto it. *)
Lemma fallback_that_raises_records_nothing :
  PytorchModelHandlerTensor._device gpu_handler = cuda
  /\ PytorchModelHandlerTensor.load_model gpu_handler world_cpu_only_corrupt
     = (Raise bad_pickle, gpu_handler,
        extend world_cpu_only_corrupt
          [EvConstruct; LogWarning gpu_unavailable_msg; EvOpen "m.pt";
           LogInfo "Loading state_dict_path m.pt onto a cpu device";
           EvTorchLoad cpu])
  /\ fell_back world_cpu_only_corrupt
       (snd (PytorchModelHandlerTensor.load_model gpu_handler
               world_cpu_only_corrupt))
  /\ PytorchModelHandlerTensor._device
       (snd (fst (PytorchModelHandlerTensor.load_model gpu_handler
                    world_cpu_only_corrupt))) <> cpu
  /\ loads (log (snd (PytorchModelHandlerTensor.load_model
                        (snd (fst (PytorchModelHandlerTensor.load_model
                                     gpu_handler world_cpu_only_corrupt)))
                        world_gpu)))
     = [EvTorchLoad cuda].
Proof.
  split; [reflexivity|]. split; [vm_compute; reflexivity|].
  split; [|split].
  - eexists. split; [vm_compute; reflexivity|]. left. simpl. auto.
  - vm_compute. discriminate.
  - vm_compute. reflexivity.
Qed.

(** The other way into the fallback: no accelerator on the machine. *)
Example load_without_accelerator :
  exists m h1 w1,
    PytorchModelHandlerTensor.load_model gpu_handler world_cpu_only
    = (Ok m, h1, w1)
    /\ PytorchModelHandlerTensor._device h1 = cpu
    /\ log w1 = [EvConstruct; LogWarning gpu_unavailable_msg; EvOpen "m.pt";
                 LogInfo "Loading state_dict_path m.pt onto a cpu device";
                 EvTorchLoad cpu; EvLoadStateDict;
                 LogInfo "Finished loading PyTorch model."]
    /\ PytorchModelHandlerTensor.get_metrics_namespace h1 = "BeamML_PyTorch".
Proof. do 3 eexists. vm_compute. repeat split. Qed.

(** A call of [load_model] that raises records nothing: the handler is
    as it was before the call. *)
Lemma tensor_load_model_failure_keeps_handler
    (h : PytorchModelHandlerTensor.t) w e h' w' :
  PytorchModelHandlerTensor.load_model h w = (Raise e, h', w') -> h' = h.
Proof.
  unfold PytorchModelHandlerTensor.load_model.
  destruct (find names_parameter _) as [k|]; [congruence|].
  destruct (_load_model _ _ _ _ w) as [[[m dev]|e0] w0]; congruence.
Qed.

(** The keyed handler's [load_model] is the same code. *)
Lemma keyed_load_model_on_cpu (h : PytorchModelHandlerKeyedTensor.t)
    w r h' w' :
  PytorchModelHandlerKeyedTensor._device h = cpu ->
  PytorchModelHandlerKeyedTensor.load_model h w = (r, h', w') ->
  PytorchModelHandlerKeyedTensor._device h' = cpu
  /\ (exists evs, w' = extend w evs
                  /\ (loads evs = [] \/ loads evs = [EvTorchLoad cpu]))
  /\ (forall m, r = Ok m -> m_device m = cpu).
Proof.
  intros Hd. unfold PytorchModelHandlerKeyedTensor.load_model.
  destruct (find names_parameter _) as [k|].
  { intros [= <- <- <-]. split; [exact Hd|]. split; [|discriminate].
    exists []. rewrite extend_nil. auto. }
  rewrite Hd.
  destruct (_load_model _ _ cpu _ w) as [[[m dev]|e] w1] eqn:Hl;
    intros [= <- <- <-];
    destruct (_load_model_cpu_trace _ _ _ _ Hl) as (evs & -> & Hloads & Hok).
  - destruct (Hok m dev eq_refl) as (-> & Hm & _).
    split; [reflexivity|]. split; [eauto|]. now intros ? [= <-].
  - split; [exact Hd|]. split; [eauto|]. discriminate.
Qed.

Lemma keyed_handler_calls_keep_cpu calls :
  forall h, PytorchModelHandlerKeyedTensor._device h = cpu ->
            PytorchModelHandlerKeyedTensor._device
              (fold_left keyed_handler_call calls h) = cpu.
Proof.
  induction calls as [|c calls IH]; intros h Hd; simpl; [exact Hd|].
  apply IH. destruct c as [w|p]; simpl.
  - destruct (PytorchModelHandlerKeyedTensor.load_model h w)
      as [[r h'] w'] eqn:E.
    simpl. now destruct (keyed_load_model_on_cpu h w Hd E).
  - destruct p as [[|a s]|]; simpl; exact Hd.
Qed.

(** ** Stacking and pairing *)

Lemma shape_eqb_eq a b : shape_eqb a b = true <-> a = b.
Proof.
  unfold shape_eqb. destruct (list_eq_dec Nat.eq_dec a b); split;
    congruence.
Qed.

Lemma stackable_iff ts :
  stackable ts = true <-> ts <> [] /\ same_shaped ts /\ same_device ts.
Proof.
  destruct ts as [|t rest]; simpl.
  - split; [discriminate|]. intros (H & _); congruence.
  - rewrite andb_true_iff, !forallb_forall. split.
    + intros (Hs & Hd). split; [discriminate|].
      assert (Hs' : forall u, In u (t :: rest) -> t_shape u = t_shape t).
      { intros u [<-|Hu]; [reflexivity|]. now apply shape_eqb_eq, Hs. }
      assert (Hd' : forall u, In u (t :: rest) -> t_device u = t_device t).
      { intros u [<-|Hu]; [reflexivity|]. now apply device_eqb_eq, Hd. }
      split; intros a b Ha Hb.
      * now rewrite (Hs' a Ha), (Hs' b Hb).
      * now rewrite (Hd' a Ha), (Hd' b Hb).
    + intros (_ & Hs & Hd). split; intros u Hu.
      * apply shape_eqb_eq, Hs; simpl; auto.
      * apply device_eqb_eq, Hd; simpl; auto.
Qed.

Lemma torch_stack_ok ts :
  stackable ts = true ->
  exists x, torch_stack ts = Ok x
            /\ t_shape x = List.length ts :: t_shape (hd x ts)
            /\ t_device x = t_device (hd x ts).
Proof.
  destruct ts as [|t rest]; simpl; [discriminate|].
  intros H. apply andb_true_iff in H. destruct H as (-> & ->). simpl.
  eexists; split; [reflexivity|]. simpl. auto.
Qed.

Lemma torch_stack_raises ts :
  stackable ts = false ->
  exists e, torch_stack ts = Raise e /\ exn_cls e = RuntimeError.
Proof.
  destruct ts as [|t rest]; simpl; [eauto|].
  destruct (forallb _ rest); simpl; [|eauto].
  intros ->. simpl. eauto.
Qed.

Lemma torch_stack_is_ok ts x : torch_stack ts = Ok x -> stackable ts = true.
Proof.
  destruct (stackable ts) eqn:E; [reflexivity|].
  destruct (torch_stack_raises ts E) as (e & -> & _). discriminate.
Qed.

Lemma moved_to_shape t d : t_shape (moved_to t d) = t_shape t.
Proof. unfold moved_to. now destruct (device_eqb _ _). Qed.

Lemma moved_to_device t d : t_device (moved_to t d) = d.
Proof.
  unfold moved_to. destruct (device_eqb _ _) eqn:E; [|reflexivity].
  now apply device_eqb_eq.
Qed.

Lemma has_device_now w d :
  has_device w d -> d = cuda -> cuda_is_available (env w) (log w) = true.
Proof. intros H E. specialize (H E []). now rewrite app_nil_r in H. Qed.

Lemma has_device_extend w d evs :
  has_device w d -> has_device (extend w evs) d.
Proof.
  intros H E evs'. unfold extend; simpl. rewrite <- app_assoc. now apply H.
Qed.

Lemma has_device_cpu w : has_device w cpu.
Proof. intros E; discriminate. Qed.

(** On a host that has the device the normalizer returns, and only ever
    adds transfers to the trace. *)
Lemma _convert_to_device_run t d w :
  has_device w d ->
  exists evs,
    _convert_to_device t d w = (Ok (moved_to t d), extend w evs)
    /\ filter event_is_invoke evs = []
    /\ filter event_is_getattr evs = [].
Proof.
  intros Hd. unfold _convert_to_device, tensor_to, moved_to.
  destruct (device_eqb (t_device t) d); simpl.
  - exists []. now rewrite extend_nil.
  - unfold bind, ask, emit, ret, raise. simpl.
    assert (E : device_eqb d cuda
                && negb (cuda_is_available (env w) (log w)) = false).
    { destruct d; [reflexivity|]. now rewrite (has_device_now Hd). }
    rewrite E. eexists [_]. repeat split.
Qed.

(** Without the accelerator asked for, the move raises and nothing is
    transferred. *)
Lemma _convert_to_device_unreachable t w :
  t_device t <> cuda ->
  cuda_is_available (env w) (log w) = false ->
  _convert_to_device t cuda w = (Raise no_cuda, w).
Proof.
  intros Hne Hav. unfold _convert_to_device, tensor_to.
  apply device_eqb_neq in Hne. rewrite Hne. simpl.
  unfold bind, ask, raise. simpl. now rewrite Hav.
Qed.


(** ** Inference on plain tensors *)

Lemma run_inference_args_normalized (h : PytorchModelHandlerTensor.t)
    batch model args :
  PytorchModelHandlerTensor.run_inference h batch model args
  = PytorchModelHandlerTensor._inference_fn h batch model
      (PytorchModelHandlerTensor._device h) (Some (normalized_args args))
      (Some (PytorchModelHandlerTensor._state_dict_path h)).
Proof. reflexivity. Qed.




(** The scenario of two vectors, weights at [m.pt] and a model that
    returns its input: two results, each input paired with itself, both
    tagged [m.pt]. *)
Example run_inference_identity_scenario :
  PytorchModelHandlerTensor.run_inference cpu_handler [vec_a; vec_b]
    identity_model None world_cpu_only
  = (Ok [ {| example := vec_a; inference := vec_a; model_id := Some "m.pt" |};
          {| example := vec_b; inference := vec_b; model_id := Some "m.pt" |} ],
     extend world_cpu_only [EvInvoke]).
Proof. vm_compute. reflexivity. Qed.


(** ** Grouping a keyed batch *)

Lemma defaultdict_get_append d key tensor k :
  defaultdict_get (defaultdict_append d key tensor) k
  = if String.eqb key k then defaultdict_get d key ++ [tensor]
    else defaultdict_get d k.
Proof.
  unfold defaultdict_get.
  induction d as [|[k0 l0] d IH]; simpl.
  - destruct (String.eqb key k); reflexivity.
  - destruct (String.eqb k0 key) eqn:E0; simpl.
    + apply String.eqb_eq in E0; subst k0.
      destruct (String.eqb key k); reflexivity.
    + destruct (String.eqb k0 k) eqn:E1.
      * apply String.eqb_eq in E1; subst k0.
        rewrite String.eqb_sym, E0. reflexivity.
      * exact IH.
Qed.

Lemma defaultdict_append_keys d key tensor :
  dict_keys (defaultdict_append d key tensor)
  = if dict_mem d key then dict_keys d else dict_keys d ++ [key].
Proof.
  unfold dict_mem, dict_keys.
  induction d as [|[k0 l0] d IH]; simpl; [reflexivity|].
  rewrite (String.eqb_sym key k0).
  destruct (String.eqb k0 key); simpl; [reflexivity|].
  rewrite IH. now destruct (existsb _ _).
Qed.

Lemma dict_mem_In {V} (d : dict V) k :
  dict_mem d k = true <-> In k (dict_keys d).
Proof.
  unfold dict_mem. rewrite existsb_exists. split.
  - intros (x & Hx & E). apply String.eqb_eq in E. now subst.
  - intros H. exists k. split; [exact H|apply String.eqb_refl].
Qed.

Lemma dict_mem_not_In {V} (d : dict V) k :
  dict_mem d k = false <-> ~ In k (dict_keys d).
Proof.
  rewrite <- dict_mem_In. destruct (dict_mem d k); split; congruence.
Qed.

Lemma defaultdict_append_In d key tensor k :
  In k (dict_keys (defaultdict_append d key tensor))
  <-> In k (dict_keys d) \/ k = key.
Proof.
  rewrite defaultdict_append_keys.
  destruct (dict_mem d key) eqn:E.
  - apply dict_mem_In in E. split; [auto|]. intros [H| ->]; auto.
  - rewrite in_app_iff. simpl. split; intros [H|H]; auto.
    + destruct H as [<-|[]]; auto.
Qed.

Lemma defaultdict_append_NoDup d key tensor :
  NoDup (dict_keys d) -> NoDup (dict_keys (defaultdict_append d key tensor)).
Proof.
  intros H. rewrite defaultdict_append_keys.
  destruct (dict_mem d key) eqn:E; [exact H|].
  apply dict_mem_not_In in E.
  apply NoDup_app; [exact H|repeat constructor; simpl; tauto|].
  intros x Hx [<-|[]]. contradiction.
Qed.

(** One example's items appended to the groups. *)
Lemma group_items_get items d k :
  defaultdict_get
    (fold_left (fun d kt => defaultdict_append d (fst kt) (snd kt)) items d)
    k
  = defaultdict_get d k ++ items_column items k.
Proof.
  unfold items_column.
  revert d; induction items as [|[k0 t0] items IH]; intros d; simpl.
  - now rewrite app_nil_r.
  - rewrite IH, defaultdict_get_append.
    destruct (String.eqb k0 k) eqn:E; simpl; [|reflexivity].
    apply String.eqb_eq in E; subst k0. now rewrite <- app_assoc.
Qed.

Lemma group_items_In items d k :
  In k (dict_keys
          (fold_left (fun d kt => defaultdict_append d (fst kt) (snd kt))
                     items d))
  <-> In k (dict_keys d) \/ In k (dict_keys items).
Proof.
  revert d; induction items as [|[k0 t0] items IH]; intros d; simpl.
  - tauto.
  - rewrite IH, defaultdict_append_In. intuition auto.
Qed.

Lemma group_items_NoDup items d :
  NoDup (dict_keys d) ->
  NoDup (dict_keys
           (fold_left (fun d kt => defaultdict_append d (fst kt) (snd kt))
                      items d)).
Proof.
  revert d; induction items as [|[k0 t0] items IH]; intros d H; simpl.
  - exact H.
  - apply IH, defaultdict_append_NoDup, H.
Qed.

Lemma group_from_get batch d k :
  defaultdict_get (group_from batch d) k
  = defaultdict_get d k ++ column batch k.
Proof.
  unfold group_from, column.
  revert d; induction batch as [|ex batch IH]; intros d; simpl.
  - now rewrite app_nil_r.
  - rewrite IH, group_items_get. now rewrite <- app_assoc.
Qed.

Lemma group_from_In batch d k :
  In k (dict_keys (group_from batch d))
  <-> In k (dict_keys d) \/ has_key batch k.
Proof.
  unfold group_from, has_key.
  revert d; induction batch as [|ex batch IH]; intros d; simpl.
  - split; [auto|]. intros [H|(ex & [] & _)]; exact H.
  - rewrite IH, group_items_In. split.
    + intros [[H|H]|(ex' & H1 & H2)]; eauto 6.
    + intros [H|(ex' & [<-|H1] & H2)]; eauto 6.
Qed.

Lemma group_from_NoDup batch d :
  NoDup (dict_keys d) -> NoDup (dict_keys (group_from batch d)).
Proof.
  unfold group_from.
  revert d; induction batch as [|ex batch IH]; intros d H; simpl.
  - exact H.
  - apply IH, group_items_NoDup, H.
Qed.

(** What the grouping loops leave under each key. *)
Lemma group_by_key_get batch k :
  defaultdict_get (group_by_key batch) k = column batch k.
Proof. exact (group_from_get batch [] k). Qed.

Lemma group_by_key_In batch k :
  In k (dict_keys (group_by_key batch)) <-> has_key batch k.
Proof.
  change (group_by_key batch) with (group_from batch []).
  rewrite group_from_In. simpl. tauto.
Qed.

Lemma group_by_key_NoDup batch : NoDup (dict_keys (group_by_key batch)).
Proof. apply (group_from_NoDup batch []). constructor. Qed.

(** ** Stacking the groups *)

Lemma dict_set_fresh {V} (d : dict V) k (v : V) :
  ~ In k (dict_keys d) -> dict_set d k v = d ++ [(k, v)].
Proof.
  induction d as [|[k0 v0] d IH]; simpl; intros H; [reflexivity|].
  destruct (String.eqb k0 k) eqn:E.
  - apply String.eqb_eq in E. tauto.
  - rewrite IH; tauto.
Qed.

Lemma dict_keys_app {V} (a b : dict V) :
  dict_keys (a ++ b) = dict_keys a ++ dict_keys b.
Proof. apply map_app. Qed.

(** The stacking loop goes through when every group is stackable: each
    key gets its stacked tensor on the device, in the order of the keys,
    and the trace gains transfers only. *)
Lemma stack_keys_run g device keys :
  forall acc w,
    has_device w device ->
    NoDup keys ->
    (forall k, In k keys -> ~ In k (dict_keys acc)) ->
    (forall k, In k keys -> stackable (defaultdict_get g k) = true) ->
    exists evs,
      stack_keys g device keys acc w
      = (Ok (acc ++ map (fun k => (k, stack_on (defaultdict_get g k) device))
                        keys),
         extend w evs)
      /\ filter event_is_invoke evs = [].
Proof.
  induction keys as [|key keys IH]; intros acc w Hhost Hnd Hfresh Hst; simpl.
  - exists []. now rewrite extend_nil, app_nil_r.
  - inversion Hnd as [|? ? Hnotin Hnd']; subst.
    destruct (torch_stack_ok _ (Hst key (or_introl eq_refl)))
      as (x & Hx & _).
    destruct (_convert_to_device_run x Hhost) as (ev1 & Hc & Hi1 & _).
    unfold bind at 1. unfold lift at 1. rewrite Hx.
    unfold bind at 1. rewrite Hc.
    rewrite dict_set_fresh by (apply Hfresh; simpl; auto).
    destruct (IH (acc ++ [(key, moved_to x device)]) (extend w ev1)
                 (has_device_extend ev1 Hhost) Hnd')
      as (ev2 & Hrun & Hi2).
    + intros k Hk. rewrite dict_keys_app, in_app_iff. simpl.
      intros [H|[<-|[]]]; [|contradiction].
      apply (Hfresh k); simpl; auto.
    + intros k Hk. apply Hst; simpl; auto.
    + exists (ev1 ++ ev2). rewrite Hrun, extend_extend, <- app_assoc.
      unfold stack_on at 2. rewrite Hx. simpl.
      split; [reflexivity|]. now rewrite filter_app, Hi1, Hi2.
Qed.

(** The stacking loop stops at the first group [torch.stack] refuses:
    the error is the library's, raised before any call of the model. *)
Lemma stack_keys_raises g device keys :
  forall acc w,
    has_device w device ->
    (exists k, In k keys /\ stackable (defaultdict_get g k) = false) ->
    exists e evs k,
      stack_keys g device keys acc w = (Raise e, extend w evs)
      /\ In k keys
      /\ torch_stack (defaultdict_get g k) = Raise e
      /\ exn_cls e = RuntimeError
      /\ filter event_is_invoke evs = [].
Proof.
  induction keys as [|key keys IH]; intros acc w Hhost (k & Hin & Hbad).
  - destruct Hin.
  - simpl.
    destruct (stackable (defaultdict_get g key)) eqn:Hs.
    + destruct (torch_stack_ok _ Hs) as (x & Hx & _).
      destruct (_convert_to_device_run x Hhost) as (ev1 & Hc & Hi1 & _).
      unfold bind at 1. unfold lift at 1. rewrite Hx.
      unfold bind at 1. rewrite Hc.
      destruct Hin as [<-|Hin]; [congruence|].
      destruct (IH (dict_set acc key (moved_to x device)) (extend w ev1)
                   (has_device_extend ev1 Hhost))
        as (e & ev2 & k' & Hrun & Hk' & He & Hcls & Hi2); [eauto|].
      exists e, (ev1 ++ ev2), k'. rewrite Hrun, extend_extend.
      repeat split; auto. now rewrite filter_app, Hi1, Hi2.
    + destruct (torch_stack_raises _ Hs) as (e & He & Hcls).
      exists e, [], key. unfold bind at 1. unfold lift at 1. rewrite He.
      rewrite extend_nil. repeat split; simpl; auto.
Qed.

Lemma merge_kwargs_disjoint a b :
  (forall k, In k (dict_keys b) -> ~ In k (dict_keys a)) ->
  merge_kwargs a b = Ok (a ++ b).
Proof.
  unfold merge_kwargs. intros H.
  assert (E : find (fun k => dict_mem a k) (dict_keys b) = None).
  { induction (dict_keys b) as [|k ks IH]; simpl; [reflexivity|].
    destruct (dict_mem a k) eqn:Em.
    - apply dict_mem_In in Em. exfalso. apply (H k); simpl; auto.
    - apply IH. intros k' Hk'. apply H. simpl; auto. }
  now rewrite E.
Qed.

Lemma tensor_kwargs_keys d : dict_keys (tensor_kwargs d) = dict_keys d.
Proof.
  unfold tensor_kwargs, dict_keys. rewrite map_map. reflexivity.
Qed.

Lemma batched_by_key_keys batch device :
  dict_keys (batched_by_key batch device) = dict_keys (group_by_key batch).
Proof.
  unfold batched_by_key, dict_keys at 1. rewrite map_map. simpl.
  apply map_id.
Qed.

Lemma default_keyed_stacking batch device w :
  has_device w device ->
  (forall k, has_key batch k -> stackable (column batch k) = true) ->
  exists evs,
    stack_keys (group_by_key batch) device (dict_keys (group_by_key batch))
               [] w
    = (Ok (batched_by_key batch device), extend w evs)
    /\ filter event_is_invoke evs = [].
Proof.
  intros Hhost Hst.
  destruct (@stack_keys_run (group_by_key batch) device
              (dict_keys (group_by_key batch)) [] w Hhost)
    as (evs & Hrun & Hi).
  - apply group_by_key_NoDup.
  - intros k _ [].
  - intros k Hk. rewrite group_by_key_get. apply Hst.
    now apply group_by_key_In.
  - exists evs. split; [|exact Hi]. rewrite Hrun. simpl.
    unfold batched_by_key.
    erewrite map_ext; [reflexivity|].
    intros k. simpl. now rewrite group_by_key_get.
Qed.

Lemma dict_get_map_keys {V} (f : string -> V) keys k :
  In k keys -> dict_get (map (fun key => (key, f key)) keys) k = Some (f k).
Proof.
  induction keys as [|k0 keys IH]; simpl; [tauto|].
  destruct (String.eqb k0 k) eqn:E.
  - apply String.eqb_eq in E. now subst.
  - intros [->|H]; [now rewrite String.eqb_refl in E|auto].
Qed.

Lemma batched_by_key_get batch device k :
  has_key batch k ->
  dict_get (batched_by_key batch device) k
  = Some (stack_on (column batch k) device).
Proof.
  intros H. unfold batched_by_key.
  apply (dict_get_map_keys (fun key => stack_on (column batch key) device)).
  now apply group_by_key_In.
Qed.

Lemma stack_on_shape ts device :
  stackable ts = true ->
  exists s, t_shape (stack_on ts device) = List.length ts :: s
            /\ forall t, In t ts -> t_shape t = s.
Proof.
  intros H. unfold stack_on.
  destruct (torch_stack_ok ts H) as (x & -> & Hs & _).
  rewrite moved_to_shape, Hs. eexists; split; [reflexivity|].
  apply stackable_iff in H. destruct H as (Hne & Hsame & _).
  intros t Ht. apply Hsame; [exact Ht|].
  destruct ts; [congruence|simpl; auto].
Qed.

Lemma stack_on_device ts device :
  stackable ts = true -> t_device (stack_on ts device) = device.
Proof.
  intros H. unfold stack_on.
  destruct (torch_stack_ok ts H) as (x & -> & _). apply moved_to_device.
Qed.


(** ** Keys missing from some examples *)

(** C7, as amended: on a host that has the device, a key missing from
    some examples is not an error at the stacking step.  The tensors under
    each key are gathered from the examples that hold it and stacked on
    their own; when each key's tensors are stackable (same shape, same
    device) the stacking loop ends with, for each key, a batched tensor on
    the device whose leading dimension is the number of tensors gathered
    under that key, and the function goes on to the call of the model:
    it raises a type error there, without invoking the model, when
    [inference_args] is [None] or names a key of the batch, and otherwise
    invokes the model once and pairs the batch with its output.  The
    stacking step raises only when the tensors gathered under some key are
    not stackable, and then the library's error comes out unmodified and
    the model is not invoked. *)
Theorem keyed_stacking_is_per_key
    (batch : list (dict Tensor)) (model : Module) (device : torch_device)
    (inference_args : option (dict pyval)) (mid : option string)
    (w : World) :
  has_device w device ->
  let run := default_keyed_tensor_inference_fn batch model device
               inference_args mid w in
  ((forall k, has_key batch k -> stackable (column batch k) = true) ->
   (exists evs,
       filter event_is_invoke evs = []
       /\ stack_keys (group_by_key batch) device
            (dict_keys (group_by_key batch)) [] w
          = (Ok (batched_by_key batch device), extend w evs)
       /\ run
          = match inference_args with
            | None => (Raise none_is_no_mapping, extend w evs)
            | Some extra =>
                match merge_kwargs
                        (tensor_kwargs (batched_by_key batch device)) extra
                with
                | Raise e => (Raise e, extend w evs)
                | Ok kw =>
                    (match forward model [] kw with
                     | Ok p => _convert_to_result batch p mid
                     | Raise e => Raise e
                     end,
                     extend w (evs ++ [EvInvoke]))
                end
            end)
   /\ (forall k, has_key batch k ->
                 exists t s,
                   dict_get (batched_by_key batch device) k = Some t
                   /\ t_shape t = List.length (column batch k) :: s
                   /\ t_device t = device))
  /\
  ((exists k, has_key batch k /\ stackable (column batch k) = false) ->
   exists e evs k,
     run = (Raise e, extend w evs)
     /\ has_key batch k
     /\ torch_stack (column batch k) = Raise e
     /\ exn_cls e = RuntimeError
     /\ filter event_is_invoke evs = []).
Proof.
  intros Hhost run. split.
  - intros Hst. split.
    + destruct (@default_keyed_stacking batch device w Hhost Hst)
        as (evs & Hrun & Hi).
      exists evs. split; [exact Hi|]. split; [exact Hrun|].
      subst run. unfold default_keyed_tensor_inference_fn. cbv zeta.
      unfold bind at 1. rewrite Hrun.
      destruct inference_args as [extra|]; [|reflexivity].
      unfold bind, lift, unpack, invoke, emit. simpl.
      destruct (merge_kwargs _ extra) as [kw|e]; [|reflexivity].
      unfold extend; simpl. rewrite <- app_assoc.
      destruct (forward model [] kw) as [p|e]; [|reflexivity].
      destruct (_convert_to_result batch p mid); reflexivity.
    + intros k Hk.
      destruct (@stack_on_shape (column batch k) device (Hst k Hk))
        as (s & Hs & _).
      exists (stack_on (column batch k) device), s.
      split; [now apply batched_by_key_get|].
      split; [exact Hs|]. now apply stack_on_device, Hst.
  - intros (k & Hk & Hbad).
    destruct (@stack_keys_raises (group_by_key batch) device
                (dict_keys (group_by_key batch)) [] w Hhost)
      as (e & evs & k' & Hrun & Hk' & He & Hcls & Hi).
    { exists k. split; [now apply group_by_key_In|].
      now rewrite group_by_key_get. }
    exists e, evs, k'. subst run.
    unfold default_keyed_tensor_inference_fn. cbv zeta.
    unfold bind at 1. rewrite Hrun.
    rewrite group_by_key_get in He. apply group_by_key_In in Hk'.
    auto.
Qed.

Lemma ragged_batch_stackable k :
  has_key ragged_batch k -> stackable (column ragged_batch k) = true.
Proof.
  intros (ex & [<-|[<-|[]]] & Hk); simpl in Hk;
    repeat (destruct Hk as [<-|Hk]; [reflexivity|]); destruct Hk.
Qed.

Lemma keyed_stacking_is_per_key_witness :
  ((exists evs,
       filter event_is_invoke evs = []
       /\ stack_keys (group_by_key ragged_batch) cpu
            (dict_keys (group_by_key ragged_batch)) [] world_cpu_only
          = (Ok (batched_by_key ragged_batch cpu),
             extend world_cpu_only evs)
       /\ default_keyed_tensor_inference_fn ragged_batch identity_model cpu
            (Some []) (Some "m.pt") world_cpu_only
          = match merge_kwargs
                    (tensor_kwargs (batched_by_key ragged_batch cpu)) []
            with
            | Raise e => (Raise e, extend world_cpu_only evs)
            | Ok kw =>
                (match forward identity_model [] kw with
                 | Ok p => _convert_to_result ragged_batch p (Some "m.pt")
                 | Raise e => Raise e
                 end,
                 extend world_cpu_only (evs ++ [EvInvoke]))
            end)
   /\ (forall k, has_key ragged_batch k ->
                 exists t s,
                   dict_get (batched_by_key ragged_batch cpu) k = Some t
                   /\ t_shape t = List.length (column ragged_batch k) :: s
                   /\ t_device t = cpu))
  /\
  (exists e evs k,
      default_keyed_tensor_inference_fn uneven_batch identity_model cpu
        (Some []) (Some "m.pt") world_cpu_only
      = (Raise e, extend world_cpu_only evs)
      /\ has_key uneven_batch k
      /\ torch_stack (column uneven_batch k) = Raise e
      /\ exn_cls e = RuntimeError
      /\ filter event_is_invoke evs = []).
Proof.
  split.
  - apply (proj1 (@keyed_stacking_is_per_key ragged_batch identity_model cpu
                    (Some []) (Some "m.pt") world_cpu_only
                    (has_device_cpu world_cpu_only))).
    exact ragged_batch_stackable.
  - apply (proj2 (@keyed_stacking_is_per_key uneven_batch identity_model cpu
                    (Some []) (Some "m.pt") world_cpu_only
                    (has_device_cpu world_cpu_only))).
    exists "x". split; [|reflexivity].
    exists [("x", vec_a)]. simpl. auto.
Defined.

(** C7, as stated, fails on a batch whose second example lacks the key
    [mask]: the stacking loop raises nothing and leaves a batched tensor
    of two rows under [x] and of one row under [mask]; the model is then
    invoked, and the call returns one result per example. *)
Lemma keyed_missing_key_reaches_the_model :
  In "mask" (dict_keys example_full)
  /\ ~ In "mask" (dict_keys example_short)
  /\ stack_keys (group_by_key ragged_batch) cpu
       (dict_keys (group_by_key ragged_batch)) [] world_cpu_only
     = (Ok [ ("x", {| t_shape := [2; 3]; t_dtype := float32;
                      t_device := cpu;
                      t_data := [1; 2; 3; 4; 5; 6]%Z |});
             ("mask", {| t_shape := [1; 3]; t_dtype := float32;
                         t_device := cpu; t_data := [4; 5; 6]%Z |}) ],
        world_cpu_only)
  /\ default_keyed_tensor_inference_fn ragged_batch identity_model cpu
       (Some []) (Some "m.pt") world_cpu_only
     = (Ok [ {| example := example_full; inference := vec_a;
                model_id := Some "m.pt" |};
             {| example := example_short; inference := vec_b;
                model_id := Some "m.pt" |} ],
        extend world_cpu_only [EvInvoke]).
Proof.
  split; [simpl; auto|]. split.
  - simpl. intros [H|[]]. discriminate.
  - split; vm_compute; reflexivity.
Qed.

(** ** Inference on keyed tensors *)









Lemma keyed_batch_has_key k :
  has_key keyed_batch k -> k = "x" \/ k = "mask".
Proof.
  intros (ex & [<-|[<-|[]]] & Hk); simpl in Hk;
    repeat (destruct Hk as [<-|Hk]; [auto|]); destruct Hk.
Qed.



(** The keyed scenario: two examples with the keys [x] and [mask] and a
    model that returns its [x]. *)
Example keyed_run_inference_scenario :
  PytorchModelHandlerKeyedTensor.run_inference keyed_cpu_handler
    keyed_batch identity_model None world_cpu_only
  = (Ok [ {| example := [("x", vec_a); ("mask", vec_b)];
             inference := vec_a; model_id := Some "m.pt" |};
          {| example := [("mask", vec_a); ("x", vec_b)];
             inference := vec_b; model_id := Some "m.pt" |} ],
     extend world_cpu_only [EvInvoke]).
Proof. vm_compute. reflexivity. Qed.


(** * Further properties of the module *)

(** ** The loader: what it returns and what it lets through *)

Lemma accepts_ok_tt (model : Module) sd u :
  accepts model sd = Ok u -> accepts model sd = Ok tt.
Proof. now destruct u. Qed.

Lemma _load_model_cpu_ready model_class path params w m dev w' :
  _load_model model_class path cpu params w = (Ok (m, dev), w') ->
  exists model f sd,
    model_class params = Ok model
    /\ FileSystems_open (env w)
         (log w ++ [EvConstruct] ++ [EvOpen path]) path = Ok f
    /\ torch_load (env w)
         (log w ++ [EvConstruct] ++ final_attempt path cpu) f cpu = Ok sd
    /\ accepts model sd = Ok tt
    /\ dev = cpu
    /\ m = ready_model model sd cpu
    /\ w' = extend w
              ([EvConstruct] ++ final_attempt path cpu
                 ++ [EvLoadStateDict;
                     LogInfo "Finished loading PyTorch model."]).
Proof.
  rewrite (_load_model_depth 0), _load_model_rec_step. simpl.
  destruct (model_class params) as [model|e]; [|discriminate].
  destruct (FileSystems_open _ _ path) as [f|e] eqn:Ho; [|discriminate].
  destruct (torch_load _ _ _ cpu) as [sd|e] eqn:Hl.
  - destruct (accepts model sd) as [u|e] eqn:Ha; [|discriminate].
    intros [= <- <- <-]. exists model, f, sd.
    repeat split; auto. now destruct u.
  - rewrite andb_false_r. discriminate.
Qed.

(** X1: whenever the loader returns, the model it returns is the one its
    class constructed, holding the state dict that [torch.load] gave in
    the attempt that went through (the last events of the call, on the
    returned device) and that the model accepted, resident on the
    returned device and in evaluation mode; the returned device is the
    requested one or the CPU. *)
Theorem load_model_returns_ready_model
    (model_class : model_class_t) (path : string)
    (device : torch_device) (params : dict pyval) (w : World)
    (m : Module) (dev : torch_device) (w' : World) :
  _load_model model_class path device params w = (Ok (m, dev), w') ->
  (dev = device \/ dev = cpu)
  /\ m_device m = dev
  /\ m_training m = false
  /\ exists model f sd pre,
      model_class params = Ok model
      /\ FileSystems_open (env w) (log w ++ pre ++ [EvOpen path]) path
         = Ok f
      /\ torch_load (env w) (log w ++ pre ++ final_attempt path dev) f dev
         = Ok sd
      /\ accepts model sd = Ok tt
      /\ w' = extend w
                (pre ++ final_attempt path dev
                   ++ [EvLoadStateDict;
                       LogInfo "Finished loading PyTorch model."])
      /\ m_state m = Some sd
      /\ forward m = forward model
      /\ methods m = methods model.
Proof.
  destruct device.
  { intros H.
    destruct (_load_model_cpu_ready _ _ _ _ H)
      as (model & f & sd & Hm & Ho & Hl & Ha & -> & -> & ->).
    repeat split; auto.
    exists model, f, sd, [EvConstruct]. repeat split; auto. }
  rewrite (_load_model_depth 0), _load_model_rec_step.
  destruct (model_class params) as [model|e] eqn:Hm; [|discriminate].
  cbv zeta.
  destruct (device_eqb cuda cuda && _) eqn:Hfb.
  - destruct (FileSystems_open _ _ path) as [f|e] eqn:Ho; [|discriminate].
    destruct (torch_load _ _ _ cpu) as [sd|e] eqn:Hl.
    + destruct (accepts model sd) as [u|e] eqn:Ha; [|discriminate].
      intros [= <- <- <-]. repeat split; auto.
      exists model, f, sd, [EvConstruct; LogWarning gpu_unavailable_msg].
      repeat split; auto. now destruct u.
    + rewrite andb_false_r. discriminate.
  - destruct (FileSystems_open _ _ path) as [f|e] eqn:Ho; [|discriminate].
    destruct (torch_load _ _ _ cuda) as [sd|e] eqn:Hl.
    + destruct (accepts model sd) as [u|e] eqn:Ha; [|discriminate].
      intros [= <- <- <-]. repeat split; auto.
      exists model, f, sd, [EvConstruct]. repeat split; auto.
      now destruct u.
    + destruct (is_RuntimeError e); simpl; [|discriminate].
      rewrite (_load_model_rec_cpu_depth 0 998).
      change (_load_model_rec 999) with _load_model at 1.
      intros H.
      destruct (_load_model_cpu_ready _ _ _ _ H)
        as (model' & f' & sd & Hm' & Ho' & Hl' & Ha & -> & -> & ->).
      repeat split; auto.
      exists model', f', sd,
        ([EvConstruct; EvOpen path; LogInfo (loading_msg path cuda);
          EvTorchLoad cuda; LogWarning (gpu_failed_msg e)] ++ [EvConstruct]).
      unfold extend in *. simpl in Ho', Hl' |- *.
      rewrite <- !app_assoc in Ho', Hl'. simpl in Ho', Hl'.
      rewrite <- !app_assoc. simpl.
      repeat split; auto. congruence.
Qed.

Lemma load_model_returns_ready_model_witness :
  (cpu = cuda \/ cpu = cpu)
  /\ m_device identity_on_cpu = cpu
  /\ m_training identity_on_cpu = false
  /\ exists model f sd pre,
      identity_class [] = Ok model
      /\ FileSystems_open (env world_gpu_fails)
           (log world_gpu_fails ++ pre ++ [EvOpen "m.pt"]) "m.pt"
         = Ok f
      /\ torch_load (env world_gpu_fails)
           (log world_gpu_fails ++ pre ++ final_attempt "m.pt" cpu) f cpu
         = Ok sd
      /\ accepts model sd = Ok tt
      /\ extend world_gpu_fails fallback_trace
         = extend world_gpu_fails
             (pre ++ final_attempt "m.pt" cpu
                ++ [EvLoadStateDict;
                    LogInfo "Finished loading PyTorch model."])
      /\ m_state identity_on_cpu = Some sd
      /\ forward identity_on_cpu = forward model
      /\ methods identity_on_cpu = methods model.
Proof.
  apply (@load_model_returns_ready_model identity_class "m.pt" cuda []
           world_gpu_fails identity_on_cpu cpu
           (extend world_gpu_fails fallback_trace)).
  vm_compute. reflexivity.
Defined.

(** X2: only runtime errors of the deserialization send the loader to the
    CPU.  When deserializing onto the accelerator fails with an error of
    another class, that error is raised as it is, no warning is logged and
    nothing is tried on the CPU. *)
Theorem load_model_other_errors_not_retried
    (model_class : model_class_t) (path : string) (params : dict pyval)
    (w : World) (model : Module) (f : file) (e : exn) :
  model_class params = Ok model ->
  cuda_is_available (env w) (log w ++ [EvConstruct]) = true ->
  FileSystems_open (env w) (log w ++ [EvConstruct; EvOpen path]) path
  = Ok f ->
  torch_load (env w) (log w ++ attempt_events path cuda true) f cuda
  = Raise e ->
  is_RuntimeError e = false ->
  _load_model model_class path cuda params w
  = (Raise e, extend w (attempt_events path cuda true))
  /\ loads (attempt_events path cuda true) = [EvTorchLoad cuda]
  /\ filter event_is_warning (attempt_events path cuda true) = [].
Proof.
  intros Hm Hav Ho Hl He. split; [|split; reflexivity].
  rewrite (_load_model_depth 0), _load_model_rec_step, Hm. cbv zeta.
  rewrite Hav. unfold attempt_events, target_device in *.
  simpl in Ho, Hl |- *. rewrite Ho, Hl, He. reflexivity.
Qed.

Lemma load_model_other_errors_not_retried_witness :
  _load_model identity_class "m.pt" cuda [] world_truncated
  = (Raise eof_error, extend world_truncated (attempt_events "m.pt" cuda true))
  /\ loads (attempt_events "m.pt" cuda true) = [EvTorchLoad cuda]
  /\ filter event_is_warning (attempt_events "m.pt" cuda true) = [].
Proof.
  apply (@load_model_other_errors_not_retried identity_class "m.pt" []
           world_truncated identity_model [80; 75] eof_error);
    reflexivity.
Defined.

(** X3: applying the weights is outside the loader's [try].  When the
    model rejects the deserialized state dict, the error of
    [load_state_dict] is raised as it is, whatever its class and whatever
    the device: a runtime error on the accelerator included, nothing is
    tried again on the CPU. *)
Theorem load_state_dict_failure_is_final
    (model_class : model_class_t) (path : string)
    (requested : torch_device) (params : dict pyval)
    (w : World) (model : Module) (f : file) (sd : state_dict) (e : exn) :
  let available := cuda_is_available (env w) (log w ++ [EvConstruct]) in
  let target := target_device requested available in
  model_class params = Ok model ->
  FileSystems_open (env w)
    (log w ++ before_open requested available ++ [EvOpen path]) path
  = Ok f ->
  torch_load (env w)
    (log w ++ attempt_events path requested available) f target
  = Ok sd ->
  accepts model sd = Raise e ->
  _load_model model_class path requested params w
  = (Raise e,
     extend w (attempt_events path requested available
                 ++ [EvLoadStateDict]))
  /\ loads (attempt_events path requested available ++ [EvLoadStateDict])
     = [EvTorchLoad target].
Proof.
  intros available target Hm Ho Hl Ha. subst target.
  rewrite (_load_model_depth 0), _load_model_rec_step, Hm. cbv zeta.
  fold available.
  unfold attempt_events, before_open, target_device in *.
  destruct (device_eqb requested cuda && negb available);
    simpl in Ho, Hl |- *; rewrite Ho, Hl, Ha; split; reflexivity.
Qed.

Lemma load_state_dict_failure_is_final_witness :
  _load_model picky_class "m.pt" cuda [] world_gpu
  = (Raise unexpected_keys,
     extend world_gpu (attempt_events "m.pt" cuda true ++ [EvLoadStateDict]))
  /\ loads (attempt_events "m.pt" cuda true ++ [EvLoadStateDict])
     = [EvTorchLoad (target_device cuda true)].
Proof.
  apply (@load_state_dict_failure_is_final picky_class "m.pt" cuda []
           world_gpu picky_model [80; 75] [1; 2; 3] unexpected_keys);
    reflexivity.
Defined.

(** X4: a failure before the deserialization ends the load at once.  When
    the model class refuses its parameters nothing else is done, not even
    the device check; when the weights file cannot be opened the error of
    the storage layer is raised as it is; in both cases nothing is
    deserialized and no retry is made, on any device. *)
Theorem load_model_early_failures
    (model_class : model_class_t) (path : string)
    (requested : torch_device) (params : dict pyval) (w : World) :
  let available := cuda_is_available (env w) (log w ++ [EvConstruct]) in
  (forall e,
      model_class params = Raise e ->
      _load_model model_class path requested params w
      = (Raise e, extend w [EvConstruct]))
  /\
  (forall model e,
      model_class params = Ok model ->
      FileSystems_open (env w)
        (log w ++ before_open requested available ++ [EvOpen path]) path
      = Raise e ->
      _load_model model_class path requested params w
      = (Raise e, extend w (before_open requested available ++ [EvOpen path]))
      /\ loads (before_open requested available ++ [EvOpen path]) = []).
Proof.
  intros available. split.
  - intros e Hm.
    now rewrite (_load_model_depth 0), _load_model_rec_step, Hm.
  - intros model e Hm Ho.
    rewrite (_load_model_depth 0), _load_model_rec_step, Hm. cbv zeta.
    fold available. unfold before_open in *.
    destruct (device_eqb requested cuda && negb available);
      simpl in Ho |- *; rewrite Ho; split; reflexivity.
Qed.

Lemma load_model_early_failures_witness :
  _load_model failing_class "m.pt" cuda [] world_gpu
  = (Raise bad_params, extend world_gpu [EvConstruct])
  /\ _load_model identity_class "m.pt" cuda [] world_no_file
     = (Raise no_such_file,
        extend world_no_file (before_open cuda true ++ [EvOpen "m.pt"]))
  /\ loads (before_open cuda true ++ [EvOpen "m.pt"]) = [].
Proof.
  split.
  - apply (proj1 (load_model_early_failures failing_class "m.pt" cuda []
                    world_gpu) bad_params).
    reflexivity.
  - apply (proj2 (load_model_early_failures identity_class "m.pt" cuda []
                    world_no_file) identity_model no_such_file);
      reflexivity.
Defined.

(** ** The handlers' [load_model] *)

(** The loader when its first deserialization and the model go along. *)
Lemma _load_model_first_attempt model_class path requested params w
    model f sd :
  let available := cuda_is_available (env w) (log w ++ [EvConstruct]) in
  let target := target_device requested available in
  model_class params = Ok model ->
  FileSystems_open (env w)
    (log w ++ before_open requested available ++ [EvOpen path]) path
  = Ok f ->
  torch_load (env w)
    (log w ++ attempt_events path requested available) f target
  = Ok sd ->
  accepts model sd = Ok tt ->
  _load_model model_class path requested params w
  = (Ok (ready_model model sd target, target),
     extend w (success_events path requested available)).
Proof.
  intros available target Hm Ho Hl Ha. subst target.
  rewrite (_load_model_depth 0), _load_model_rec_step, Hm. cbv zeta.
  fold available.
  unfold success_events, attempt_events, before_open, target_device in *.
  destruct (device_eqb requested cuda && negb available);
    simpl in Ho, Hl |- *; rewrite Ho, Hl, Ha; reflexivity.
Qed.

Lemma names_parameter_In k :
  names_parameter k = true <-> In k _load_model_parameters.
Proof.
  unfold names_parameter. rewrite existsb_exists. split.
  - intros (x & Hx & E). apply String.eqb_eq in E. now subst.
  - intros H. exists k. split; [exact H|apply String.eqb_refl].
Qed.

Lemma no_parameter_clash_find params :
  no_parameter_clash params ->
  find names_parameter (dict_keys params) = None.
Proof.
  unfold no_parameter_clash.
  induction (dict_keys params) as [|k ks IH]; intros H; simpl;
    [reflexivity|].
  destruct (names_parameter k) eqn:E.
  - apply names_parameter_In in E. exfalso. apply (H k); simpl; auto.
  - apply IH. intros k' Hk'. apply H. simpl; auto.
Qed.



(** X6: a plain handler constructed with ['GPU'], with no model parameter
    named like a parameter of the loader, and loaded on a machine without
    accelerator completes on the CPU: the call logs the warning,
    deserializes once, on the CPU, returns the model ready on the CPU and
    records the CPU as the handler's device. *)
Theorem gpu_handler_without_accelerator_loads_on_cpu
    (state_dict_path : string) (model_class : model_class_t)
    (model_params : dict pyval) (fn : TensorInferenceFn)
    (min_batch_size max_batch_size : option nat)
    (w0 w1 w : World) (h : PytorchModelHandlerTensor.t)
    (model : Module) (f : file) (sd : state_dict) :
  PytorchModelHandlerTensor.__init__ state_dict_path model_class
    model_params "GPU" fn min_batch_size max_batch_size w0 = (Ok h, w1) ->
  no_parameter_clash model_params ->
  cuda_is_available (env w) (log w ++ [EvConstruct]) = false ->
  model_class model_params = Ok model ->
  FileSystems_open (env w)
    (log w ++ [EvConstruct; LogWarning gpu_unavailable_msg;
               EvOpen state_dict_path]) state_dict_path
  = Ok f ->
  torch_load (env w)
    (log w ++ attempt_events state_dict_path cuda false) f cpu = Ok sd ->
  accepts model sd = Ok tt ->
  PytorchModelHandlerTensor._device h = cuda
  /\ exists h',
      PytorchModelHandlerTensor.load_model h w
      = (Ok (ready_model model sd cpu), h',
         extend w (success_events state_dict_path cuda false))
      /\ PytorchModelHandlerTensor._device h' = cpu
      /\ PytorchModelHandlerTensor._state_dict_path h' = state_dict_path
      /\ In (LogWarning gpu_unavailable_msg)
            (success_events state_dict_path cuda false)
      /\ loads (success_events state_dict_path cuda false)
         = [EvTorchLoad cpu].
Proof.
  intros Hinit Hnc Hav Hm Ho Hl Ha.
  unfold PytorchModelHandlerTensor.__init__ in Hinit.
  cbn in Hinit. injection Hinit as <- _.
  split; [reflexivity|]. eexists. split.
  - unfold PytorchModelHandlerTensor.load_model. cbn [
      PytorchModelHandlerTensor._model_class
      PytorchModelHandlerTensor._state_dict_path
      PytorchModelHandlerTensor._device
      PytorchModelHandlerTensor._model_params].
    rewrite (no_parameter_clash_find Hnc).
    rewrite (@_load_model_first_attempt model_class state_dict_path cuda
               model_params w model f sd Hm).
    + rewrite Hav. reflexivity.
    + rewrite Hav. exact Ho.
    + rewrite Hav. exact Hl.
    + exact Ha.
  - repeat split. unfold success_events, attempt_events. simpl. auto.
Qed.

Lemma gpu_handler_without_accelerator_loads_on_cpu_witness :
  PytorchModelHandlerTensor._device gpu_handler = cuda
  /\ exists h',
      PytorchModelHandlerTensor.load_model gpu_handler world_cpu_only
      = (Ok (ready_model identity_model [1; 2; 3] cpu), h',
         extend world_cpu_only (success_events "m.pt" cuda false))
      /\ PytorchModelHandlerTensor._device h' = cpu
      /\ PytorchModelHandlerTensor._state_dict_path h' = "m.pt"
      /\ In (LogWarning gpu_unavailable_msg)
            (success_events "m.pt" cuda false)
      /\ loads (success_events "m.pt" cuda false) = [EvTorchLoad cpu].
Proof.
  apply (@gpu_handler_without_accelerator_loads_on_cpu "m.pt" identity_class
           [] default_tensor_inference_fn None None
           world_cpu_only (extend world_cpu_only
                             [LogInfo "Device is set to CUDA"])
           world_cpu_only gpu_handler identity_model [80; 75] [1; 2; 3]);
    try reflexivity.
  intros k [].
Defined.

(** X7: the keyed handler keeps the CPU as well.  From a keyed handler
    whose recorded device is the CPU, through any later calls of
    [load_model] (in any worlds, succeeding or failing) and
    [update_model_path], the recorded device is the CPU, and each
    [load_model] deserializes on the CPU only and gives a model on the
    CPU. *)
Theorem keyed_handler_keeps_cpu
    (h : PytorchModelHandlerKeyedTensor.t) (calls : list handler_call) :
  PytorchModelHandlerKeyedTensor._device h = cpu ->
  let h2 := fold_left keyed_handler_call calls h in
  PytorchModelHandlerKeyedTensor._device h2 = cpu
  /\ forall w2 r h3 w3,
      PytorchModelHandlerKeyedTensor.load_model h2 w2 = (r, h3, w3) ->
      PytorchModelHandlerKeyedTensor._device h3 = cpu
      /\ (exists evs, w3 = extend w2 evs
                      /\ (loads evs = [] \/ loads evs = [EvTorchLoad cpu]))
      /\ (forall m', r = Ok m' -> m_device m' = cpu).
Proof.
  intros Hd h2.
  assert (H2 : PytorchModelHandlerKeyedTensor._device h2 = cpu)
    by now apply keyed_handler_calls_keep_cpu.
  split; [exact H2|].
  intros w2 r h3 w3. now apply keyed_load_model_on_cpu.
Qed.

Lemma keyed_handler_keeps_cpu_witness :
  let h2 := fold_left keyed_handler_call
              [CallLoadModel world_gpu; CallUpdateModelPath (Some "n.pt");
               CallLoadModel world_corrupt]
              keyed_cpu_handler in
  PytorchModelHandlerKeyedTensor._device h2 = cpu
  /\ forall w2 r h3 w3,
      PytorchModelHandlerKeyedTensor.load_model h2 w2 = (r, h3, w3) ->
      PytorchModelHandlerKeyedTensor._device h3 = cpu
      /\ (exists evs, w3 = extend w2 evs
                      /\ (loads evs = [] \/ loads evs = [EvTorchLoad cpu]))
      /\ (forall m', r = Ok m' -> m_device m' = cpu).
Proof.
  apply (@keyed_handler_keeps_cpu keyed_cpu_handler
           [CallLoadModel world_gpu; CallUpdateModelPath (Some "n.pt");
            CallLoadModel world_corrupt]).
  reflexivity.
Defined.

(** ** Paths and batching hints *)

(** X8: [update_model_path] with [None] or the empty string leaves the
    plain handler as it is; with a non-empty path it replaces the weights
    location and nothing else.  Later calls of [run_inference] hand the
    inference function the effective path as model id, together with the
    handler's unchanged device, and of two updates the last non-empty one
    wins. *)
Theorem tensor_update_model_path_effect
    (h : PytorchModelHandlerTensor.t) (p q : option string)
    (batch : list Tensor) (model : Module) (args : option (dict pyval)) :
  let h' := PytorchModelHandlerTensor.update_model_path h p in
  let old := PytorchModelHandlerTensor._state_dict_path h in
  (effective_path old p = old -> h' = h)
  /\ PytorchModelHandlerTensor._state_dict_path h' = effective_path old p
  /\ PytorchModelHandlerTensor._device h' = PytorchModelHandlerTensor._device h
  /\ PytorchModelHandlerTensor.batch_elements_kwargs h'
     = PytorchModelHandlerTensor.batch_elements_kwargs h
  /\ PytorchModelHandlerTensor.run_inference h' batch model args
     = PytorchModelHandlerTensor._inference_fn h batch model
         (PytorchModelHandlerTensor._device h) (Some (normalized_args args))
         (Some (effective_path old p))
  /\ PytorchModelHandlerTensor._state_dict_path
       (PytorchModelHandlerTensor.update_model_path h' q)
     = effective_path (effective_path old p) q.
Proof.
  intros h' old. subst h' old.
  destruct p as [[|a s]|]; destruct q as [[|b t]|]; simpl;
    repeat split; auto; intros E; destruct h; simpl in *; now subst.
Qed.

Lemma tensor_update_model_path_effect_witness :
  let h' := PytorchModelHandlerTensor.update_model_path cpu_handler
              (Some "") in
  let old := PytorchModelHandlerTensor._state_dict_path cpu_handler in
  effective_path old (Some "") = old /\ h' = cpu_handler.
Proof.
  split; [reflexivity|].
  apply (proj1 (tensor_update_model_path_effect cpu_handler (Some "") None
                  [] identity_model None)).
  reflexivity.
Defined.

(** X9: the batching hints given to a constructor are what
    [batch_elements_kwargs] returns, for both handlers: [min_batch_size]
    and [max_batch_size] are present exactly when they were given, with
    the given values, and no other key is. *)
Theorem init_batching_hints_round_trip
    (state_dict_path : string) (model_class : model_class_t)
    (model_params : dict pyval) (device : string)
    (fn : TensorInferenceFn) (kfn : KeyedTensorInferenceFn)
    (min_batch_size max_batch_size : option nat) (w : World) :
  (exists h w',
      PytorchModelHandlerTensor.__init__ state_dict_path model_class
        model_params device fn min_batch_size max_batch_size w = (Ok h, w')
      /\ forall k,
          dict_get (PytorchModelHandlerTensor.batch_elements_kwargs h) k
          = if String.eqb k "min_batch_size" then min_batch_size
            else if String.eqb k "max_batch_size" then max_batch_size
                 else None)
  /\
  (exists h w',
      PytorchModelHandlerKeyedTensor.__init__ state_dict_path model_class
        model_params device kfn min_batch_size max_batch_size w = (Ok h, w')
      /\ forall k,
          dict_get (PytorchModelHandlerKeyedTensor.batch_elements_kwargs h) k
          = if String.eqb k "min_batch_size" then min_batch_size
            else if String.eqb k "max_batch_size" then max_batch_size
                 else None).
Proof.
  assert (Hmm : String.eqb "min_batch_size" "max_batch_size" = false)
    by reflexivity.
  unfold PytorchModelHandlerTensor.__init__,
    PytorchModelHandlerKeyedTensor.__init__.
  split; destruct (String.eqb device "GPU");
    do 2 eexists; (split; [reflexivity|]); intros k;
    unfold PytorchModelHandlerTensor.batch_elements_kwargs,
      PytorchModelHandlerKeyedTensor.batch_elements_kwargs;
    destruct min_batch_size, max_batch_size;
    cbn -[String.eqb]; rewrite ?Hmm; cbn -[String.eqb];
    rewrite ?(String.eqb_sym _ k);
    destruct (String.eqb k "min_batch_size") eqn:E1;
    destruct (String.eqb k "max_batch_size") eqn:E2;
    try reflexivity;
    apply String.eqb_eq in E1; apply String.eqb_eq in E2;
    subst; discriminate.
Qed.

(** ** The device normalizer, twice *)

(** X10: on a host that has the target device (or for a tensor that is
    there already), the normalizer returns a tensor on the target device
    that has the shape, element type and elements of its argument, and
    normalizing that tensor again gives it back with nothing done: one
    transfer at most, however often it is applied. *)
Theorem convert_to_device_idempotent
    (examples : Tensor) (device : torch_device) (w : World) :
  (t_device examples = device
   \/ device = cpu
   \/ cuda_is_available (env w) (log w) = true) ->
  exists moved w1,
    _convert_to_device examples device w = (Ok moved, w1)
    /\ t_device moved = device
    /\ t_shape moved = t_shape examples
    /\ t_dtype moved = t_dtype examples
    /\ t_data moved = t_data examples
    /\ transfers w1 <= S (transfers w)
    /\ _convert_to_device moved device w1 = (Ok moved, w1).
Proof.
  intros Hr. unfold _convert_to_device, tensor_to.
  destruct (device_eqb (t_device examples) device) eqn:E; simpl.
  - exists examples, w. apply device_eqb_eq in E.
    rewrite E, device_eqb_refl. simpl. repeat split; auto.
  - unfold bind, ask, emit, ret, raise. simpl.
    assert (Ha : device_eqb device cuda
                 && negb (cuda_is_available (env w) (log w)) = false).
    { destruct Hr as [H|[ -> | -> ]].
      - apply device_eqb_eq in H. congruence.
      - reflexivity.
      - apply andb_false_r. }
    rewrite Ha.
    do 2 eexists. split; [reflexivity|]. simpl.
    rewrite device_eqb_refl. simpl. repeat split.
    unfold transfers; simpl. rewrite filter_app, length_app. simpl. lia.
Qed.

Lemma convert_to_device_idempotent_witness :
  exists moved w1,
    _convert_to_device tensor_2x3 cuda world_gpu = (Ok moved, w1)
    /\ t_device moved = cuda
    /\ t_shape moved = t_shape tensor_2x3
    /\ t_dtype moved = t_dtype tensor_2x3
    /\ t_data moved = t_data tensor_2x3
    /\ transfers w1 <= S (transfers world_gpu)
    /\ _convert_to_device moved cuda w1 = (Ok moved, w1).
Proof.
  apply (@convert_to_device_idempotent tensor_2x3 cuda world_gpu).
  right. right. reflexivity.
Defined.

(** ** Failures of the plain inference functions *)

(** X11: a batch that [torch.stack] refuses (empty, of unequal shapes, or
    spread over devices) makes both plain inference functions, and
    [run_inference] with the default one, raise the library's runtime
    error as it is, before anything else is done: no transfer, no lookup
    of the named method, no call of the model. *)
Theorem plain_inference_unstackable_batch
    (h : PytorchModelHandlerTensor.t) (model_fn : string)
    (batch : list Tensor) (model : Module) (device : torch_device)
    (args : option (dict pyval)) (mid : option string) (w : World) :
  stackable batch = false ->
  exists e,
    torch_stack batch = Raise e
    /\ exn_cls e = RuntimeError
    /\ default_tensor_inference_fn batch model device args mid w
       = (Raise e, w)
    /\ make_tensor_model_fn model_fn batch model device args mid w
       = (Raise e, w)
    /\ (PytorchModelHandlerTensor._inference_fn h
        = default_tensor_inference_fn ->
        PytorchModelHandlerTensor.run_inference h batch model args w
        = (Raise e, w)).
Proof.
  intros Hs. destruct (torch_stack_raises batch Hs) as (e & He & Hcls).
  exists e. split; [exact He|]. split; [exact Hcls|].
  assert (Hd : forall a i,
             default_tensor_inference_fn batch model device a i w
             = (Raise e, w)).
  { intros a i. unfold default_tensor_inference_fn.
    unfold bind at 1. unfold lift at 1. now rewrite He. }
  split; [apply Hd|]. split.
  - unfold make_tensor_model_fn.
    unfold bind at 1. unfold lift at 1. now rewrite He.
  - intros Hfn. rewrite run_inference_args_normalized, Hfn.
    unfold default_tensor_inference_fn.
    unfold bind at 1. unfold lift at 1. now rewrite He.
Qed.

Lemma plain_inference_unstackable_batch_witness :
  exists e,
    torch_stack [vec_a; scalar_pair] = Raise e
    /\ exn_cls e = RuntimeError
    /\ default_tensor_inference_fn [vec_a; scalar_pair] identity_model cpu
         None (Some "m.pt") world_cpu_only
       = (Raise e, world_cpu_only)
    /\ make_tensor_model_fn "generate" [vec_a; scalar_pair] identity_model
         cpu None (Some "m.pt") world_cpu_only
       = (Raise e, world_cpu_only)
    /\ (PytorchModelHandlerTensor._inference_fn cpu_handler
        = default_tensor_inference_fn ->
        PytorchModelHandlerTensor.run_inference cpu_handler
          [vec_a; scalar_pair] identity_model None world_cpu_only
        = (Raise e, world_cpu_only)).
Proof.
  apply (@plain_inference_unstackable_batch cpu_handler "generate"
           [vec_a; scalar_pair] identity_model cpu None (Some "m.pt")
           world_cpu_only).
  reflexivity.
Defined.

(** X12: on a host that has the device, the default plain inference
    function calls the model exactly once per batch, on the stacked
    tensor, and moves at most one tensor: the stacked one, when the batch
    is not on the device already. This holds whether the model returns or
    raises. *)
Theorem plain_inference_one_call_per_batch
    (batch : list Tensor) (model : Module) (device : torch_device)
    (kw : dict pyval) (mid : option string) (w : World) (x : Tensor) :
  torch_stack batch = Ok x ->
  has_device w device ->
  snd (default_tensor_inference_fn batch model device (Some kw) mid w)
  = extend w
      ((if device_eqb (t_device (hd x batch)) device then []
        else [EvTransfer (t_device (hd x batch)) device])
         ++ [EvInvoke]).
Proof.
  intros Hx Hhost.
  assert (Hav : device_eqb device cuda
                && negb (cuda_is_available (env w) (log w)) = false).
  { destruct device; [reflexivity|]. now rewrite (has_device_now Hhost). }
  assert (Hd : t_device x = t_device (hd x batch)).
  { destruct (torch_stack_ok batch (torch_stack_is_ok batch Hx))
      as (x' & Hx' & _ & Hdev). congruence. }
  unfold default_tensor_inference_fn.
  unfold bind at 1. unfold lift at 1. rewrite Hx.
  unfold _convert_to_device, tensor_to. rewrite <- Hd.
  destruct (device_eqb (t_device x) device); simpl;
    unfold bind, lift, unpack, invoke, emit, ret, ask, extend; simpl;
    rewrite ?Hav; simpl;
    match goal with
    | |- context [forward model ?a ?b] => destruct (forward model a b)
    end; simpl;
    rewrite <- ?app_assoc;
    try (match goal with
         | |- context [_convert_to_result ?b ?p ?m] =>
             destruct (_convert_to_result b p m)
         end);
    reflexivity.
Qed.

Lemma plain_inference_one_call_per_batch_witness :
  snd (default_tensor_inference_fn [vec_a; vec_b] failing_model cuda
         (Some []) None world_gpu)
  = extend world_gpu
      ((if device_eqb (t_device (hd tensor_2x3 [vec_a; vec_b])) cuda then []
        else [EvTransfer (t_device (hd tensor_2x3 [vec_a; vec_b])) cuda])
         ++ [EvInvoke]).
Proof.
  apply (@plain_inference_one_call_per_batch [vec_a; vec_b] failing_model
           cuda [] None world_gpu tensor_2x3).
  - reflexivity.
  - intros _ evs. reflexivity.
Defined.

(** X13: on a host that has the handler's device, an error raised by the
    model comes out of [run_inference] of the plain handler as it is: no
    result is produced, and the model has been called once. *)
Theorem plain_run_inference_model_error
    (h : PytorchModelHandlerTensor.t) (batch : list Tensor)
    (model : Module) (args : option (dict pyval)) (w : World)
    (x : Tensor) (e : exn) :
  PytorchModelHandlerTensor._inference_fn h = default_tensor_inference_fn ->
  torch_stack batch = Ok x ->
  has_device w (PytorchModelHandlerTensor._device h) ->
  forward model [moved_to x (PytorchModelHandlerTensor._device h)]
    (normalized_args args) = Raise e ->
  exists evs,
    PytorchModelHandlerTensor.run_inference h batch model args w
    = (Raise e, extend w (evs ++ [EvInvoke]))
    /\ filter event_is_invoke evs = [].
Proof.
  intros Hfn Hx Hhost He.
  destruct (_convert_to_device_run x Hhost) as (evs & Hc & Hi & _).
  exists evs. split; [|exact Hi].
  rewrite run_inference_args_normalized, Hfn.
  unfold default_tensor_inference_fn.
  unfold bind at 1. unfold lift at 1. rewrite Hx.
  unfold bind at 1. rewrite Hc.
  unfold bind, lift, unpack, invoke, emit. simpl. rewrite He.
  unfold extend. simpl. now rewrite app_assoc.
Qed.

Lemma plain_run_inference_model_error_witness :
  exists evs,
    PytorchModelHandlerTensor.run_inference cpu_handler [vec_a; vec_b]
      failing_model None world_cpu_only
    = (Raise shape_mismatch, extend world_cpu_only (evs ++ [EvInvoke]))
    /\ filter event_is_invoke evs = [].
Proof.
  apply (@plain_run_inference_model_error cpu_handler [vec_a; vec_b]
           failing_model None world_cpu_only tensor_2x3 shape_mismatch);
    try reflexivity.
  apply has_device_cpu.
Defined.

(** X14: the inference functions cannot take their own default
    [inference_args=None]: on a host that has the device, unpacking it
    into the call is a type error, raised after the stacking and the move
    and before the model is called.  The
    handlers' [run_inference] never passes it on: it replaces [None] and
    the empty dictionary alike by an empty dictionary. *)
Theorem inference_args_none_is_rejected
    (h : PytorchModelHandlerTensor.t) (batch : list Tensor)
    (model : Module) (device : torch_device) (mid : option string)
    (w : World) (x : Tensor) :
  torch_stack batch = Ok x ->
  has_device w device ->
  (exists evs,
      default_tensor_inference_fn batch model device None mid w
      = (Raise none_is_no_mapping, extend w evs)
      /\ filter event_is_invoke evs = [])
  /\ PytorchModelHandlerTensor.run_inference h batch model None
     = PytorchModelHandlerTensor.run_inference h batch model (Some [])
  /\ PytorchModelHandlerTensor.run_inference h batch model None
     = PytorchModelHandlerTensor._inference_fn h batch model
         (PytorchModelHandlerTensor._device h) (Some [])
         (Some (PytorchModelHandlerTensor._state_dict_path h)).
Proof.
  intros Hx Hhost. split; [|split; reflexivity].
  destruct (_convert_to_device_run x Hhost) as (evs & Hc & Hi & _).
  exists evs. split; [|exact Hi].
  unfold default_tensor_inference_fn.
  unfold bind at 1. unfold lift at 1. rewrite Hx.
  unfold bind at 1. rewrite Hc. reflexivity.
Qed.

Lemma inference_args_none_is_rejected_witness :
  (exists evs,
      default_tensor_inference_fn [vec_a; vec_b] identity_model cpu None
        (Some "m.pt") world_cpu_only
      = (Raise none_is_no_mapping, extend world_cpu_only evs)
      /\ filter event_is_invoke evs = [])
  /\ PytorchModelHandlerTensor.run_inference cpu_handler [vec_a; vec_b]
       identity_model None
     = PytorchModelHandlerTensor.run_inference cpu_handler [vec_a; vec_b]
         identity_model (Some [])
  /\ PytorchModelHandlerTensor.run_inference cpu_handler [vec_a; vec_b]
       identity_model None
     = PytorchModelHandlerTensor._inference_fn cpu_handler [vec_a; vec_b]
         identity_model
         (PytorchModelHandlerTensor._device cpu_handler) (Some [])
         (Some (PytorchModelHandlerTensor._state_dict_path cpu_handler)).
Proof.
  apply (@inference_args_none_is_rejected cpu_handler [vec_a; vec_b]
           identity_model cpu (Some "m.pt") world_cpu_only tensor_2x3).
  - reflexivity.
  - apply has_device_cpu.
Defined.

(** X15: on a host that has the device, the plain named-method function on
    a model that has no such method raises the attribute error of the
    lookup, after the batch has been stacked and moved and before any call
    of the model; with a method that is there, it calls that method, once,
    in place of the model's own entry point. *)
Theorem plain_named_method_lookup
    (model_fn : string) (batch : list Tensor) (model : Module)
    (device : torch_device) (kw : dict pyval) (mid : option string)
    (w : World) (x : Tensor) :
  torch_stack batch = Ok x ->
  has_device w device ->
  exists evs,
    filter event_is_invoke evs = []
    /\ make_tensor_model_fn model_fn batch model device (Some kw) mid w
       = match lookup_method model model_fn with
         | None =>
             (Raise (no_attribute model_fn),
              extend w (evs ++ [EvGetattr model_fn]))
         | Some f =>
             (match f [moved_to x device] kw with
              | Ok p => _convert_to_result batch p mid
              | Raise e => Raise e
              end,
              extend w (evs ++ [EvGetattr model_fn; EvInvoke]))
         end.
Proof.
  intros Hx Hhost.
  destruct (_convert_to_device_run x Hhost) as (evs & Hc & Hi & _).
  exists evs. split; [exact Hi|].
  unfold make_tensor_model_fn.
  unfold bind at 1. unfold lift at 1. rewrite Hx.
  unfold bind at 1. rewrite Hc.
  unfold lookup_method, getattr, no_attribute.
  unfold bind, lift, unpack, invoke, emit, ret, raise, extend. simpl.
  destruct (String.eqb model_fn "forward");
    [|destruct (dict_get (methods model) model_fn)]; simpl;
    rewrite <- ?app_assoc; simpl;
    try (match goal with
         | |- context [?f [moved_to x device] kw] =>
             destruct (f [moved_to x device] kw)
         end; simpl);
    try (match goal with
         | |- context [_convert_to_result ?b ?p ?m] =>
             destruct (_convert_to_result b p m)
         end);
    reflexivity.
Qed.

Lemma plain_named_method_lookup_witness :
  exists evs,
    filter event_is_invoke evs = []
    /\ make_tensor_model_fn "generate" [vec_a; vec_b] identity_model cpu
         (Some []) None world_cpu_only
       = match lookup_method identity_model "generate" with
         | None =>
             (Raise (no_attribute "generate"),
              extend world_cpu_only (evs ++ [EvGetattr "generate"]))
         | Some f =>
             (match f [moved_to tensor_2x3 cpu] [] with
              | Ok p => _convert_to_result [vec_a; vec_b] p None
              | Raise e => Raise e
              end,
              extend world_cpu_only
                (evs ++ [EvGetattr "generate"; EvInvoke]))
         end.
Proof.
  apply (@plain_named_method_lookup "generate" [vec_a; vec_b]
           identity_model cpu [] None world_cpu_only tensor_2x3).
  - reflexivity.
  - apply has_device_cpu.
Defined.

(** ** Grouping: what the keyed functions stack *)

Lemma grouped_count_append d key tensor :
  grouped_count (defaultdict_append d key tensor) = S (grouped_count d).
Proof.
  unfold grouped_count.
  induction d as [|[k l] d IH]; simpl; [reflexivity|].
  destruct (String.eqb k key); simpl.
  - rewrite length_app. simpl. lia.
  - rewrite IH. lia.
Qed.

Lemma grouped_count_items items d :
  grouped_count
    (fold_left (fun d kt => defaultdict_append d (fst kt) (snd kt)) items d)
  = grouped_count d + List.length items.
Proof.
  revert d; induction items as [|kt items IH]; intros d; simpl; [lia|].
  rewrite IH, grouped_count_append. lia.
Qed.

Lemma grouped_count_from batch d :
  grouped_count (group_from batch d) = grouped_count d + batch_count batch.
Proof.
  unfold group_from, batch_count.
  revert d; induction batch as [|ex batch IH]; intros d; simpl; [lia|].
  rewrite IH, grouped_count_items. lia.
Qed.

(** X16: grouping a keyed batch by key loses and invents nothing: the
    groups hold as many tensors as the examples of the batch hold
    items. *)
Theorem group_by_key_keeps_every_tensor (batch : list (dict Tensor)) :
  grouped_count (group_by_key batch) = batch_count batch.
Proof. exact (grouped_count_from batch []). Qed.

Lemma items_column_nonempty ex k :
  In k (dict_keys ex) -> items_column ex k <> [].
Proof.
  unfold items_column.
  induction ex as [|[k0 t0] ex IH]; simpl; [tauto|].
  destruct (String.eqb k0 k) eqn:E; simpl; [discriminate|].
  apply String.eqb_neq in E. intros [H|H]; [congruence|auto].
Qed.

Lemma column_nonempty batch k : has_key batch k -> column batch k <> [].
Proof.
  intros (ex & Hex & Hk). unfold column.
  induction batch as [|ex0 batch IH]; [destruct Hex|]. simpl.
  intros E. apply app_eq_nil in E. destruct E as (E1 & E2).
  destruct Hex as [->|Hex].
  - now apply (items_column_nonempty ex k).
  - now apply IH.
Qed.

(** X17: after the grouping loops, the groups' keys are the keys that
    occur in some example, each once; under each key lie the tensors that
    the examples hold under it, in batch order; and no group is empty, so
    the keyed functions never hand [torch.stack] an empty list. *)
Theorem group_by_key_groups
    (batch : list (dict Tensor)) (k : string) :
  NoDup (dict_keys (group_by_key batch))
  /\ (In k (dict_keys (group_by_key batch)) <-> has_key batch k)
  /\ defaultdict_get (group_by_key batch) k = column batch k
  /\ (In k (dict_keys (group_by_key batch)) ->
      defaultdict_get (group_by_key batch) k <> []).
Proof.
  split; [apply group_by_key_NoDup|].
  split; [apply group_by_key_In|].
  split; [apply group_by_key_get|].
  intros Hk. rewrite group_by_key_get.
  now apply column_nonempty, group_by_key_In.
Qed.

Lemma group_by_key_groups_witness :
  In "mask" (dict_keys (group_by_key ragged_batch))
  /\ defaultdict_get (group_by_key ragged_batch) "mask" <> [].
Proof.
  assert (H : In "mask" (dict_keys (group_by_key ragged_batch)))
    by (simpl; auto).
  split; [exact H|].
  exact (proj2 (proj2 (proj2 (group_by_key_groups ragged_batch "mask"))) H).
Defined.

(** ** The keyed functions: keyword clashes and the named method *)

Lemma merge_kwargs_clash a b :
  (exists k, In k (dict_keys b) /\ In k (dict_keys a)) ->
  exists k, merge_kwargs a b = Raise (multiple_values k)
            /\ In k (dict_keys b) /\ In k (dict_keys a).
Proof.
  intros (k0 & Hb & Ha). unfold merge_kwargs, multiple_values.
  destruct (find (fun k => dict_mem a k) (dict_keys b)) as [k|] eqn:E.
  - apply find_some in E. destruct E as (Hk & Hm).
    apply dict_mem_In in Hm. eauto.
  - exfalso. pose proof (find_none _ _ E k0 Hb) as Hn. simpl in Hn.
    apply dict_mem_not_In in Hn. contradiction.
Qed.

(** X18: on a host that has the device, an extra inference argument named
    like a key of the batch makes the default keyed function raise a type
    error at the call of the model: the groups have been stacked by then,
    and the model is not invoked. *)
Theorem keyed_inference_keyword_clash
    (batch : list (dict Tensor)) (model : Module) (device : torch_device)
    (extra : dict pyval) (mid : option string) (w : World) :
  has_device w device ->
  (forall k, has_key batch k -> stackable (column batch k) = true) ->
  (exists k, In k (dict_keys extra) /\ has_key batch k) ->
  exists k evs,
    default_keyed_tensor_inference_fn batch model device (Some extra) mid w
    = (Raise (multiple_values k), extend w evs)
    /\ In k (dict_keys extra)
    /\ has_key batch k
    /\ filter event_is_invoke evs = [].
Proof.
  intros Hhost Hst (k0 & Hk0 & Hb0).
  destruct (@default_keyed_stacking batch device w Hhost Hst)
    as (evs & Hrun & Hi).
  destruct (@merge_kwargs_clash
              (tensor_kwargs (batched_by_key batch device)) extra)
    as (k & Hm & Hke & Hka).
  { exists k0. split; [exact Hk0|].
    rewrite tensor_kwargs_keys, batched_by_key_keys.
    now apply group_by_key_In. }
  exists k, evs.
  rewrite tensor_kwargs_keys, batched_by_key_keys, group_by_key_In in Hka.
  split; [|auto].
  unfold default_keyed_tensor_inference_fn. cbv zeta.
  unfold bind at 1. rewrite Hrun.
  unfold bind, lift, unpack. simpl. now rewrite Hm.
Qed.

Lemma keyed_inference_keyword_clash_witness :
  exists k evs,
    default_keyed_tensor_inference_fn ragged_batch identity_model cpu
      (Some [("mask", VBool true)]) None world_cpu_only
    = (Raise (multiple_values k), extend world_cpu_only evs)
    /\ In k (dict_keys [("mask", VBool true)])
    /\ has_key ragged_batch k
    /\ filter event_is_invoke evs = [].
Proof.
  apply (@keyed_inference_keyword_clash ragged_batch identity_model cpu
           [("mask", VBool true)] None world_cpu_only).
  - apply has_device_cpu.
  - exact ragged_batch_stackable.
  - exists "mask". split; [simpl; auto|].
    exists example_full. simpl. auto.
Defined.

Lemma getattr_found model model_fn f w :
  lookup_method model model_fn = Some f ->
  getattr model model_fn w = (Ok f, extend w [EvGetattr model_fn]).
Proof.
  unfold lookup_method, getattr, bind, emit, ret, raise, extend. simpl.
  destruct (String.eqb model_fn "forward").
  - now intros [= <-].
  - now intros ->.
Qed.

(** The stacking loop of the named-method variant: as the default one,
    with one lookup of the method for each key. *)
Lemma stack_keys_attr_run model model_fn f g device keys :
  lookup_method model model_fn = Some f ->
  forall acc pf w,
    has_device w device ->
    NoDup keys ->
    (forall k, In k keys -> ~ In k (dict_keys acc)) ->
    (forall k, In k keys -> stackable (defaultdict_get g k) = true) ->
    exists evs,
      stack_keys_attr model model_fn g device keys acc pf w
      = (Ok (acc ++ map (fun k => (k, stack_on (defaultdict_get g k) device))
                        keys,
             match keys with [] => pf | _ :: _ => Some f end),
         extend w evs)
      /\ filter event_is_invoke evs = []
      /\ filter event_is_getattr evs
         = repeat (EvGetattr model_fn) (List.length keys).
Proof.
  intros Hf.
  induction keys as [|key keys IH]; intros acc pf w Hhost Hnd Hfresh Hst;
    simpl.
  - exists []. now rewrite extend_nil, app_nil_r.
  - inversion Hnd as [|? ? Hnotin Hnd']; subst.
    destruct (torch_stack_ok _ (Hst key (or_introl eq_refl)))
      as (x & Hx & _).
    destruct (_convert_to_device_run x Hhost) as (ev1 & Hc & Hi1 & Hg1).
    unfold bind at 1. unfold lift at 1. rewrite Hx.
    unfold bind at 1. rewrite Hc.
    unfold bind at 1. rewrite (getattr_found _ _ _ Hf).
    rewrite dict_set_fresh by (apply Hfresh; simpl; auto).
    destruct (IH (acc ++ [(key, moved_to x device)]) (Some f)
                 (extend (extend w ev1) [EvGetattr model_fn])
                 (has_device_extend _ (has_device_extend ev1 Hhost)) Hnd')
      as (ev2 & Hrun & Hi2 & Hg2).
    + intros k Hk. rewrite dict_keys_app, in_app_iff. simpl.
      intros [H|[<-|[]]]; [|contradiction].
      apply (Hfresh k); simpl; auto.
    + intros k Hk. apply Hst; simpl; auto.
    + exists (ev1 ++ [EvGetattr model_fn] ++ ev2).
      rewrite Hrun, !extend_extend, <- !app_assoc.
      unfold stack_on at 2. rewrite Hx. simpl.
      split.
      * destruct keys; reflexivity.
      * rewrite !filter_app, Hi1, Hg1. simpl. now rewrite Hi2, Hg2.
Qed.

(** X19: on a host that has the device, on a batch with at least one key,
    stackable groups and no keyword clash, the keyed named-method function
    looks the method up once for every key of the batch, then calls it
    once, in place of the model's own entry point, with the per-key
    batched tensors and the extra arguments. *)
Theorem keyed_named_method_run
    (model_fn : string) (f : callable) (batch : list (dict Tensor))
    (model : Module) (device : torch_device) (extra : dict pyval)
    (mid : option string) (w : World) :
  lookup_method model model_fn = Some f ->
  has_device w device ->
  (exists k, has_key batch k) ->
  (forall k, has_key batch k -> stackable (column batch k) = true) ->
  (forall k, In k (dict_keys extra) -> ~ has_key batch k) ->
  exists evs,
    make_keyed_tensor_model_fn model_fn batch model device (Some extra) mid w
    = (match f [] (tensor_kwargs (batched_by_key batch device) ++ extra)
       with
       | Ok p => _convert_to_result batch p mid
       | Raise e => Raise e
       end,
       extend w (evs ++ [EvInvoke]))
    /\ filter event_is_invoke evs = []
    /\ filter event_is_getattr evs
       = repeat (EvGetattr model_fn)
                (List.length (dict_keys (group_by_key batch))).
Proof.
  intros Hf Hhost (k0 & Hk0) Hst Hextra.
  destruct (@stack_keys_attr_run model model_fn f (group_by_key batch)
              device (dict_keys (group_by_key batch)) Hf [] None w Hhost)
    as (evs & Hrun & Hi & Hg).
  - apply group_by_key_NoDup.
  - intros k _ [].
  - intros k Hk. rewrite group_by_key_get. apply Hst.
    now apply group_by_key_In.
  - exists evs. split; [|auto].
    assert (Hpf : match dict_keys (group_by_key batch) with
                  | [] => None
                  | _ :: _ => Some f
                  end = Some f).
    { apply group_by_key_In in Hk0. revert Hk0.
      destruct (dict_keys (group_by_key batch)); [intros []|reflexivity]. }
    rewrite Hpf in Hrun.
    assert (Hb : [] ++ map (fun k => (k, stack_on
                               (defaultdict_get (group_by_key batch) k)
                               device)) (dict_keys (group_by_key batch))
                 = batched_by_key batch device).
    { unfold batched_by_key. simpl app.
      apply map_ext. intros k. now rewrite group_by_key_get. }
    rewrite Hb in Hrun.
    unfold make_keyed_tensor_model_fn. cbv zeta.
    unfold bind at 1. rewrite Hrun. cbn [fst snd].
    unfold bind, lift, unpack, invoke, emit. simpl.
    rewrite merge_kwargs_disjoint.
    + unfold extend; simpl. rewrite <- app_assoc.
      destruct (f [] _) as [p|e]; [|reflexivity].
      destruct (_convert_to_result batch p mid); reflexivity.
    + intros k Hk. rewrite tensor_kwargs_keys, batched_by_key_keys.
      rewrite group_by_key_In. now apply Hextra.
Qed.

Lemma keyed_named_method_run_witness :
  exists evs,
    make_keyed_tensor_model_fn "generate" keyed_batch generating_model cpu
      (Some []) (Some "m.pt") world_cpu_only
    = (match forward identity_model []
               (tensor_kwargs (batched_by_key keyed_batch cpu) ++ [])
       with
       | Ok p => _convert_to_result keyed_batch p (Some "m.pt")
       | Raise e => Raise e
       end,
       extend world_cpu_only (evs ++ [EvInvoke]))
    /\ filter event_is_invoke evs = []
    /\ filter event_is_getattr evs
       = repeat (EvGetattr "generate")
                (List.length (dict_keys (group_by_key keyed_batch))).
Proof.
  apply (@keyed_named_method_run "generate" (forward identity_model)
           keyed_batch generating_model cpu [] (Some "m.pt")
           world_cpu_only).
  - reflexivity.
  - apply has_device_cpu.
  - exists "x". exists [("x", vec_a); ("mask", vec_b)]. simpl. auto.
  - intros k Hk.
    destruct (keyed_batch_has_key Hk) as [-> | ->]; reflexivity.
  - intros k [].
Defined.

(** X20: on any batch none of whose examples has a key (the empty batch,
    or examples that are empty dictionaries), the keyed named-method
    function raises the unbound-variable error, with nothing done: no
    lookup and no call. *)
Theorem keyed_named_method_unbound_without_any_key
    (model_fn : string) (batch : list (dict Tensor)) (model : Module)
    (device : torch_device) (args : option (dict pyval))
    (mid : option string) (w : World) :
  (forall k, ~ has_key batch k) ->
  make_keyed_tensor_model_fn model_fn batch model device args mid w
  = (Raise unbound_pred_fn, w).
Proof.
  intros Hno.
  assert (Hg : group_by_key batch = []).
  { destruct (group_by_key batch) as [|[k l] d] eqn:E; [reflexivity|].
    exfalso. apply (Hno k). apply group_by_key_In. rewrite E. simpl. auto. }
  unfold make_keyed_tensor_model_fn. rewrite Hg. reflexivity.
Qed.

Lemma keyed_named_method_unbound_without_any_key_witness :
  make_keyed_tensor_model_fn "generate" [[]; []; []] generating_model cuda
    (Some []) None world_gpu
  = (Raise unbound_pred_fn, world_gpu).
Proof.
  apply (@keyed_named_method_unbound_without_any_key "generate"
           [[]; []; []] generating_model cuda (Some []) None world_gpu).
  intros k (ex & [<-|[<-|[<-|[]]]] & []).
Defined.

(** ** Byte counts of the plain handler, in general *)

(** X21: on tensors of at least one dimension, [get_num_bytes] of the
    plain handler returns, summed over the batch, the length of each
    tensor's first dimension times its element width; for a batch of
    one-dimensional tensors that is the number of bytes of the batch. *)
Theorem tensor_get_num_bytes_counts_rows (batch : list Tensor) :
  Forall (fun t => t_shape t <> []) batch ->
  PytorchModelHandlerTensor.get_num_bytes batch
  = Ok (list_sum (map (fun t => hd 0 (t_shape t) * element_size t) batch))
  /\ (Forall (fun t => exists n, t_shape t = [n]) batch ->
      PytorchModelHandlerTensor.get_num_bytes batch
      = Ok (list_sum (map (fun t => numel t * element_size t) batch))).
Proof.
  intros H. unfold PytorchModelHandlerTensor.get_num_bytes.
  rewrite (get_num_bytes_first_dim 0 H). simpl. split; [reflexivity|].
  intros Hv. do 2 f_equal. apply map_ext_in. intros t Ht.
  rewrite Forall_forall in Hv. destruct (Hv t Ht) as (n & Hn).
  unfold numel. rewrite Hn. simpl. lia.
Qed.

Lemma tensor_get_num_bytes_counts_rows_witness :
  PytorchModelHandlerTensor.get_num_bytes [vec_a; scalar_pair]
  = Ok (list_sum (map (fun t => hd 0 (t_shape t) * element_size t)
                      [vec_a; scalar_pair]))
  /\ PytorchModelHandlerTensor.get_num_bytes [vec_a; scalar_pair]
     = Ok (list_sum (map (fun t => numel t * element_size t)
                         [vec_a; scalar_pair])).
Proof.
  assert (H : Forall (fun t => t_shape t <> []) [vec_a; scalar_pair])
    by (repeat constructor; discriminate).
  split.
  - exact (proj1 (tensor_get_num_bytes_counts_rows H)).
  - apply (proj2 (tensor_get_num_bytes_counts_rows H)).
    repeat constructor; eexists; reflexivity.
Defined.

Lemma sum_gen_scalar batch acc :
  (exists t, In t batch /\ t_shape t = []) ->
  sum_gen tensor_iter element_size batch acc
  = Raise (Exn TypeError "iteration over a 0-d tensor").
Proof.
  revert acc. induction batch as [|t0 batch IH]; intros acc (t & Hin & Hs).
  - destruct Hin.
  - simpl. unfold tensor_iter at 1.
    destruct (t_shape t0) as [|n s] eqn:E0; [reflexivity|].
    apply IH. destruct Hin as [<-|Hin]; [congruence|eauto].
Qed.

(** X22: a 0-d tensor anywhere in the batch makes [get_num_bytes] of the
    plain handler raise the type error of iterating it; what was summed
    before it is lost. *)
Theorem tensor_get_num_bytes_scalar_raises (batch : list Tensor) :
  (exists t, In t batch /\ t_shape t = []) ->
  PytorchModelHandlerTensor.get_num_bytes batch
  = Raise (Exn TypeError "iteration over a 0-d tensor").
Proof. apply sum_gen_scalar. Qed.

Lemma tensor_get_num_bytes_scalar_raises_witness :
  PytorchModelHandlerTensor.get_num_bytes [vec_a; scalar_tensor; vec_b]
  = Raise (Exn TypeError "iteration over a 0-d tensor").
Proof.
  apply (@tensor_get_num_bytes_scalar_raises [vec_a; scalar_tensor; vec_b]).
  exists scalar_tensor. split; [simpl; auto|reflexivity].
Defined.

(** ** Depth of the loader's recursion *)

(** X23: the loader calls itself at most once: with room for two frames
    it gives the result it gives under the interpreter's full recursion
    limit, on every device and in every world, so it never ends in a
    recursion error of its own. *)
Theorem load_model_needs_two_frames
    (d : nat) (model_class : model_class_t) (path : string)
    (device : torch_device) (params : dict pyval) (w : World) :
  2 <= d ->
  _load_model_rec d model_class path device params w
  = _load_model model_class path device params w.
Proof.
  intros Hd. destruct d as [|[|d]]; try lia.
  symmetry. apply _load_model_depth.
Qed.

Lemma load_model_needs_two_frames_witness :
  _load_model_rec 2 identity_class "m.pt" cuda [] world_corrupt
  = _load_model identity_class "m.pt" cuda [] world_corrupt.
Proof.
  apply (@load_model_needs_two_frames 2 identity_class "m.pt" cuda []
           world_corrupt).
  lia.
Defined.

(** ** Model parameters named like the loader's, and devices out of reach *)

Lemma find_names_parameter (params : dict pyval) :
  (exists k, In k (dict_keys params) /\ In k _load_model_parameters) ->
  exists k, find names_parameter (dict_keys params) = Some k
            /\ In k (dict_keys params) /\ In k _load_model_parameters.
Proof.
  intros (k0 & Hk0 & Hp0).
  destruct (find names_parameter (dict_keys params)) as [k|] eqn:E.
  - apply find_some in E. destruct E as (Hk & Hn).
    apply names_parameter_In in Hn. eauto.
  - exfalso. pose proof (find_none _ _ E k0 Hk0) as Hn.
    apply names_parameter_In in Hp0. congruence.
Qed.

(** X24: [load_model] of either handler unpacks the model parameters
    beside the loader's own [model_class], [state_dict_path] and
    [device]; when a model parameter has one of these names the call
    raises a type error before the loader runs: nothing is constructed,
    opened or logged, and the handler is as it was. *)
Theorem load_model_parameter_clash
    (h : PytorchModelHandlerTensor.t)
    (kh : PytorchModelHandlerKeyedTensor.t) (w : World) :
  ((exists k, In k (dict_keys (PytorchModelHandlerTensor._model_params h))
              /\ In k _load_model_parameters) ->
   exists k,
     PytorchModelHandlerTensor.load_model h w
     = (Raise (multiple_values_for k), h, w)
     /\ In k (dict_keys (PytorchModelHandlerTensor._model_params h))
     /\ In k _load_model_parameters)
  /\
  ((exists k,
       In k (dict_keys (PytorchModelHandlerKeyedTensor._model_params kh))
       /\ In k _load_model_parameters) ->
   exists k,
     PytorchModelHandlerKeyedTensor.load_model kh w
     = (Raise (multiple_values_for k), kh, w)
     /\ In k (dict_keys (PytorchModelHandlerKeyedTensor._model_params kh))
     /\ In k _load_model_parameters).
Proof.
  split; intros H; destruct (find_names_parameter _ H) as (k & E & Hk & Hp);
    exists k; (split; [|auto]).
  - unfold PytorchModelHandlerTensor.load_model. now rewrite E.
  - unfold PytorchModelHandlerKeyedTensor.load_model. now rewrite E.
Qed.

Lemma load_model_parameter_clash_witness :
  exists k,
    PytorchModelHandlerTensor.load_model clashing_handler world_gpu
    = (Raise (multiple_values_for k), clashing_handler, world_gpu)
    /\ In k (dict_keys
               (PytorchModelHandlerTensor._model_params clashing_handler))
    /\ In k _load_model_parameters.
Proof.
  apply (proj1 (load_model_parameter_clash clashing_handler
                  keyed_cpu_handler world_gpu)).
  exists "device". split; simpl; auto.
Defined.

(** X25: when the device is an accelerator the host does not have and the
    stacked batch is not on it, both plain inference functions raise the
    runtime error of the move as it is, after the stacking and before
    any lookup or call of the model, and nothing is transferred. *)
Theorem plain_inference_unreachable_device
    (model_fn : string) (batch : list Tensor) (model : Module)
    (args : option (dict pyval)) (mid : option string) (w : World)
    (x : Tensor) :
  torch_stack batch = Ok x ->
  t_device x <> cuda ->
  cuda_is_available (env w) (log w) = false ->
  default_tensor_inference_fn batch model cuda args mid w
  = (Raise no_cuda, w)
  /\ make_tensor_model_fn model_fn batch model cuda args mid w
     = (Raise no_cuda, w).
Proof.
  intros Hx Hne Hav.
  pose proof (_convert_to_device_unreachable x w Hne Hav) as Hc.
  split.
  - unfold default_tensor_inference_fn.
    unfold bind at 1. unfold lift at 1. rewrite Hx.
    unfold bind at 1. now rewrite Hc.
  - unfold make_tensor_model_fn.
    unfold bind at 1. unfold lift at 1. rewrite Hx.
    unfold bind at 1. now rewrite Hc.
Qed.

Lemma plain_inference_unreachable_device_witness :
  default_tensor_inference_fn [vec_a; vec_b] identity_model cuda (Some [])
    (Some "m.pt") world_cpu_only
  = (Raise no_cuda, world_cpu_only)
  /\ make_tensor_model_fn "generate" [vec_a; vec_b] identity_model cuda
       (Some []) (Some "m.pt") world_cpu_only
     = (Raise no_cuda, world_cpu_only).
Proof.
  apply (@plain_inference_unreachable_device "generate" [vec_a; vec_b]
           identity_model (Some []) (Some "m.pt") world_cpu_only tensor_2x3).
  - reflexivity.
  - simpl. discriminate.
  - reflexivity.
Defined.
